(** * CAICR coordination runtime: a shallow embedding of caicr.c

    The runtime of [caicr.c] drives two external ports, the LLDB persistence
    layer ([caicr_lldb.h]) and the network layer ([caicr_network.h]), under an
    instance mutex.  The embedding keeps the three layers apart:

    - the data of [caicr.h] (status codes, operation kinds, the operation and
      configuration structs) as inductive types and records;
    - the two ports as type classes over the state their context handle
      designates, with the placeholder bodies of [caicr_lldb.c] and
      [caicr_network.c] as instances;
    - the runtime functions in a small monad that threads the instance struct
      and records, in program order, every call the function makes. *)

From Stdlib Require Import ZArith List String Bool Lia.
Import ListNotations.
Open Scope Z_scope.

(** ** caicr.h: status codes and operations *)

Inductive CAICRStatus : Type :=
| CAICR_SUCCESS
| CAICR_ERROR_INVALID_PARAMETER
| CAICR_ERROR_OUT_OF_MEMORY
| CAICR_ERROR_LLDB_INITIALIZATION
| CAICR_ERROR_LLDB_QUERY
| CAICR_ERROR_NETWORK_INITIALIZATION
| CAICR_ERROR_INSTANCE_DISCOVERY
| CAICR_ERROR_OPERATION_EXECUTION
| CAICR_ERROR_PERSISTENCE
| CAICR_ERROR_UNKNOWN.

(** The enumerators count up from [CAICR_SUCCESS = 0]. *)
Definition status_code (s : CAICRStatus) : Z :=
  match s with
  | CAICR_SUCCESS => 0
  | CAICR_ERROR_INVALID_PARAMETER => 1
  | CAICR_ERROR_OUT_OF_MEMORY => 2
  | CAICR_ERROR_LLDB_INITIALIZATION => 3
  | CAICR_ERROR_LLDB_QUERY => 4
  | CAICR_ERROR_NETWORK_INITIALIZATION => 5
  | CAICR_ERROR_INSTANCE_DISCOVERY => 6
  | CAICR_ERROR_OPERATION_EXECUTION => 7
  | CAICR_ERROR_PERSISTENCE => 8
  | CAICR_ERROR_UNKNOWN => 9
  end.

(** [status != CAICR_SUCCESS], the test every error path of caicr.c makes. *)
Definition failed (s : CAICRStatus) : bool := negb (status_code s =? 0).

Inductive CAICROperationType : Type :=
| CAICR_OP_INSERT
| CAICR_OP_DELETE
| CAICR_OP_REPLACE
| CAICR_OP_META_CHANGE
| CAICR_OP_RESOURCE.

Definition optype_eqb (a b : CAICROperationType) : bool :=
  match a, b with
  | CAICR_OP_INSERT, CAICR_OP_INSERT
  | CAICR_OP_DELETE, CAICR_OP_DELETE
  | CAICR_OP_REPLACE, CAICR_OP_REPLACE
  | CAICR_OP_META_CHANGE, CAICR_OP_META_CHANGE
  | CAICR_OP_RESOURCE, CAICR_OP_RESOURCE => true
  | _, _ => false
  end.

(** [struct CAICROperation].  The integer fields are the values of the
    [uint32_t], [size_t] and [uint64_t] members; each of the three [char*]
    members is NULL ([None]) or points to a string.  The [next] member
    chains a batch, which the embedding carries as a [list]. *)
Record CAICROperation : Type := mkOperation {
  type : CAICROperationType;
  file_path : option string;
  line_number : Z;
  column_number : Z;
  content : option string;
  content_length : Z;
  timestamp_ns : Z;
  instance_id : option string;
  operation_id : Z
}.

(** [struct CAICRConfig].  Its three [char*] members point to strings, as
    in the configuration the sample client builds and in the copy an
    instance holds, which [caicr_initialize] tested. *)
Record CAICRConfig : Type := mkConfig {
  config_instance_id : string;
  project_root : string;
  lldb_database_path : string;
  coordination_port : Z;
  sync_interval_ms : Z;
  max_history_entries : Z;
  encryption_enabled : bool
}.

(** [struct CAICRNetworkConfig] of caicr_network.h. *)
Record CAICRNetworkConfig : Type := mkNetworkConfig {
  net_instance_id : string;
  port : Z;
  net_encryption_enabled : bool
}.

(** A pointer whose target lives in the threaded state: the instance handle
    and the out-parameter of [caicr_initialize]. *)
Inductive Ptr : Type := NULL | Addr.

(** A [CAICROperationCallback] is a code address; [user_data] is an opaque
    [void*]. *)
Definition CAICROperationCallback : Type := N.
Definition UserData : Type := option N.

(** ** The ports *)

(** caicr_lldb.h.  [DB] is the state behind a [CAICRLLDBContext]; every
    function returns its status with the state it leaves. *)
Class LLDBPort (DB : Type) : Type := {
  lldb_initialize : string -> Z -> CAICRStatus * DB;
  lldb_begin_transaction : DB -> CAICRStatus * DB;
  lldb_commit_transaction : DB -> CAICRStatus * DB;
  lldb_rollback_transaction : DB -> CAICRStatus * DB;
  lldb_store_operation : DB -> CAICROperation -> CAICRStatus * DB;
  lldb_get_last_operation : DB -> CAICRStatus * option CAICROperation * DB;
  lldb_get_operation_history :
    DB -> Z -> CAICRStatus * list CAICROperation * DB;
  lldb_mark_operation_undone : DB -> Z -> CAICRStatus * DB;
  lldb_mark_operation_redone : DB -> Z -> CAICRStatus * DB;
  lldb_shutdown : DB -> CAICRStatus * DB
}.

(** caicr_network.h.  [NET] is the state behind a [CAICRNetworkContext]. *)
Class NetworkPort (NET : Type) : Type := {
  network_initialize : CAICRNetworkConfig -> CAICRStatus * NET;
  network_distribute_operation : NET -> CAICROperation -> CAICRStatus * NET;
  network_sync_state : NET -> CAICRStatus * NET;
  network_get_pending_operations :
    NET -> CAICRStatus * list CAICROperation * NET;
  network_free_operations : NET -> list CAICROperation -> CAICRStatus * NET;
  network_shutdown : NET -> CAICRStatus * NET
}.

(** The bodies of caicr_lldb.c: every function is a placeholder that
    succeeds, and [caicr_lldb_get_last_operation] always yields NULL. *)
#[export] Instance placeholder_lldb : LLDBPort unit := {
  lldb_initialize := fun _ _ => (CAICR_SUCCESS, tt);
  lldb_begin_transaction := fun c => (CAICR_SUCCESS, c);
  lldb_commit_transaction := fun c => (CAICR_SUCCESS, c);
  lldb_rollback_transaction := fun c => (CAICR_SUCCESS, c);
  lldb_store_operation := fun c _ => (CAICR_SUCCESS, c);
  lldb_get_last_operation := fun c => (CAICR_SUCCESS, None, c);
  lldb_get_operation_history := fun c _ => (CAICR_SUCCESS, [], c);
  lldb_mark_operation_undone := fun c _ => (CAICR_SUCCESS, c);
  lldb_mark_operation_redone := fun c _ => (CAICR_SUCCESS, c);
  lldb_shutdown := fun c => (CAICR_SUCCESS, c)
}.

(** The bodies of caicr_network.c; the state is whether the context
    allocated by [caicr_network_initialize] is still allocated. *)
#[export] Instance placeholder_network : NetworkPort bool := {
  network_initialize := fun _ => (CAICR_SUCCESS, true);
  network_distribute_operation := fun c _ => (CAICR_SUCCESS, c);
  network_sync_state := fun c => (CAICR_SUCCESS, c);
  network_get_pending_operations := fun c => (CAICR_SUCCESS, [], c);
  network_free_operations := fun c _ => (CAICR_SUCCESS, c);
  network_shutdown := fun _ => (CAICR_SUCCESS, false)
}.

(** ** Calls made by the runtime *)

(** The heap blocks caicr.c releases with [free]. *)
Inductive Block : Type :=
| Blk_config_instance_id
| Blk_config_project_root
| Blk_config_lldb_database_path
| Blk_instance
| Blk_reverse_file_path
| Blk_reverse_content
| Blk_reverse_instance_id.

(** What the allocator answers to the three [strdup] calls of
    [caicr_undo], whose results the source does not test: whether the copy
    into each block succeeds.  The answers are those of the run
    considered. *)
Class Allocator : Type := {
  strdup_succeeds : Block -> bool
}.

(** An allocator that never runs out of memory, for concrete runs. *)
Definition generous : Allocator := {| strdup_succeeds := fun _ => true |}.

(** [strdup(src)] into block [b].  On NULL it reads through a null pointer:
    the behaviour is undefined and the process dies ([Segfault]).  On a
    string it returns the copy, or NULL when the allocation fails. *)
Inductive Copied : Type :=
| Copy (p : option string)
| Segfault.

Definition strdup {alloc : Allocator} (b : Block) (src : option string)
    : Copied :=
  match src with
  | None => Segfault
  | Some s => Copy (if strdup_succeeds b then Some s else None)
  end.

(** How a call of an entry point ends: it returns a status, or the process
    dies inside it. *)
Inductive Outcome : Type :=
| Returned (status : CAICRStatus)
| Crashed.

Coercion Returned : CAICRStatus >-> Outcome.

(** One constructor per call the runtime makes on a port, the mutex, the
    thread library or the allocator, with the arguments it passes and the
    status it gets back. *)
Inductive Event : Type :=
| E_mtx_init
| E_mtx_lock
| E_mtx_unlock
| E_mtx_destroy
| E_atomic_store (b : bool)
| E_thrd_create
| E_thrd_join
| E_thrd_sleep (tv_sec tv_nsec : Z)
| E_free (b : Block)
| E_free_operation (op : CAICROperation)
| E_callback (f : CAICROperationCallback)
    (operations : list CAICROperation) (user_data : UserData)
| E_lldb_initialize (db_path : string) (max_history : Z) (r : CAICRStatus)
| E_lldb_begin_transaction (r : CAICRStatus)
| E_lldb_commit_transaction (r : CAICRStatus)
| E_lldb_rollback_transaction (r : CAICRStatus)
| E_lldb_store_operation (op : CAICROperation) (r : CAICRStatus)
| E_lldb_get_last_operation (r : CAICRStatus) (out : option CAICROperation)
| E_lldb_mark_operation_undone (id : Z) (r : CAICRStatus)
| E_lldb_shutdown (r : CAICRStatus)
| E_network_initialize (cfg : CAICRNetworkConfig) (r : CAICRStatus)
| E_network_distribute_operation (op : CAICROperation) (r : CAICRStatus)
| E_network_sync_state (r : CAICRStatus)
| E_network_get_pending_operations
    (r : CAICRStatus) (out : list CAICROperation)
| E_network_free_operations (operations : list CAICROperation)
| E_network_shutdown (r : CAICRStatus).

(** Calls that write to the persistence layer. *)
Definition is_store (e : Event) : bool :=
  match e with E_lldb_store_operation _ _ => true | _ => false end.

Definition is_commit (e : Event) : bool :=
  match e with E_lldb_commit_transaction _ => true | _ => false end.

Definition is_rollback (e : Event) : bool :=
  match e with E_lldb_rollback_transaction _ => true | _ => false end.


(** A commit or a rollback call, whatever it answers. *)
Definition ends_transaction (e : Event) : bool :=
  match e with
  | E_lldb_commit_transaction _ | E_lldb_rollback_transaction _ => true
  | _ => false
  end.

(** The operations handed to [store], in call order. *)
Definition stored_ops (l : list Event) : list CAICROperation :=
  flat_map
    (fun e => match e with E_lldb_store_operation op _ => [op] | _ => [] end)
    l.

(** Calls that touch the persistence layer at all. *)
Definition is_lldb (e : Event) : bool :=
  match e with
  | E_lldb_initialize _ _ _ | E_lldb_begin_transaction _
  | E_lldb_commit_transaction _ | E_lldb_rollback_transaction _
  | E_lldb_store_operation _ _ | E_lldb_get_last_operation _ _
  | E_lldb_mark_operation_undone _ _ | E_lldb_shutdown _ => true
  | _ => false
  end.

(** Calls that close a port or release memory. *)
Definition is_release (e : Event) : bool :=
  match e with
  | E_network_shutdown _ | E_lldb_shutdown _ | E_mtx_destroy | E_free _ => true
  | _ => false
  end.

(** ** caicr.c: the instance and the monad of the runtime *)

(** [struct CAICRInstance_t].  The two context members stand for the port
    state they point to; [mutex] is whether the mutex is held; [sync_thread]
    is whether a created thread has not been joined yet. *)
Record CAICRInstance_t (DB NET : Type) : Type := mkInstance {
  config : CAICRConfig;
  lldb_context : DB;
  network_context : NET;
  mutex : bool;
  is_running : bool;
  sync_thread : bool;
  callback : option CAICROperationCallback;
  callback_user_data : UserData
}.

Arguments mkInstance {DB NET}.
Arguments config {DB NET}.
Arguments lldb_context {DB NET}.
Arguments network_context {DB NET}.
Arguments mutex {DB NET}.
Arguments is_running {DB NET}.
Arguments sync_thread {DB NET}.
Arguments callback {DB NET}.
Arguments callback_user_data {DB NET}.

(** What running a piece of the runtime yields: its value, the instance it
    leaves, and the calls it made, oldest first. *)
Record Run (S A : Type) : Type := mkRun {
  result : A;
  state : S;
  calls : list Event
}.

Arguments mkRun {S A}.
Arguments result {S A}.
Arguments state {S A}.
Arguments calls {S A}.

Module RunMonad.

Definition M (S A : Type) : Type := S -> Run S A.

Definition ret {S A : Type} (a : A) : M S A := fun s => mkRun a s [].

Definition bind {S A B : Type} (c : M S A) (f : A -> M S B) : M S B :=
  fun s =>
    match c s with
    | mkRun a s1 l1 =>
        match f a s1 with
        | mkRun b s2 l2 => mkRun b s2 (l1 ++ l2)
        end
    end.

Definition emit {S : Type} (e : Event) : M S unit := fun s => mkRun tt s [e].

Definition gets {S A : Type} (f : S -> A) : M S A := fun s => mkRun (f s) s [].

Definition modify {S : Type} (f : S -> S) : M S unit :=
  fun s => mkRun tt (f s) [].

Declare Scope run_scope.
Delimit Scope run_scope with run.

Notation "x <- c ;; k" := (bind c (fun x => k))
  (at level 61, c at next level, right associativity) : run_scope.
Notation "c ;; k" := (bind c (fun _ => k))
  (at level 61, right associativity) : run_scope.

End RunMonad.

Import RunMonad.
Open Scope run_scope.

Section Runtime.

Context {DB NET : Type} {lldb : LLDBPort DB} {net : NetworkPort NET}
        {alloc : Allocator}.

Local Abbreviation Inst := (CAICRInstance_t DB NET).
Local Abbreviation RT := (M Inst).

(** *** Member updates *)

Definition set_lldb_context (d : DB) (i : Inst) : Inst :=
  mkInstance (config i) d (network_context i) (mutex i) (is_running i)
    (sync_thread i) (callback i) (callback_user_data i).

Definition set_network_context (n : NET) (i : Inst) : Inst :=
  mkInstance (config i) (lldb_context i) n (mutex i) (is_running i)
    (sync_thread i) (callback i) (callback_user_data i).

Definition set_mutex (b : bool) (i : Inst) : Inst :=
  mkInstance (config i) (lldb_context i) (network_context i) b (is_running i)
    (sync_thread i) (callback i) (callback_user_data i).

Definition set_is_running (b : bool) (i : Inst) : Inst :=
  mkInstance (config i) (lldb_context i) (network_context i) (mutex i) b
    (sync_thread i) (callback i) (callback_user_data i).

Definition set_sync_thread (b : bool) (i : Inst) : Inst :=
  mkInstance (config i) (lldb_context i) (network_context i) (mutex i)
    (is_running i) b (callback i) (callback_user_data i).

Definition set_callback (f : option CAICROperationCallback) (u : UserData)
    (i : Inst) : Inst :=
  mkInstance (config i) (lldb_context i) (network_context i) (mutex i)
    (is_running i) (sync_thread i) f u.

(** *** The calls of the runtime, each recorded as it is made *)

Definition mtx_lock : RT unit :=
  modify (set_mutex true) ;; emit E_mtx_lock.

Definition mtx_unlock : RT unit :=
  modify (set_mutex false) ;; emit E_mtx_unlock.

Definition mtx_destroy : RT unit := emit E_mtx_destroy.

Definition atomic_store_is_running (b : bool) : RT unit :=
  modify (set_is_running b) ;; emit (E_atomic_store b).

Definition atomic_load_is_running : RT bool := gets is_running.

Definition thrd_join : RT unit :=
  modify (set_sync_thread false) ;; emit E_thrd_join.

Definition free (b : Block) : RT unit := emit (E_free b).

(** A call on the persistence port: run it on the context's state, keep the
    state it leaves, record the call with its status. *)
Definition lldb_call (f : DB -> CAICRStatus * DB)
    (ev : CAICRStatus -> Event) : RT CAICRStatus :=
  fun i =>
    let r := f (lldb_context i) in
    mkRun (fst r) (set_lldb_context (snd r) i) [ev (fst r)].

Definition network_call (f : NET -> CAICRStatus * NET)
    (ev : CAICRStatus -> Event) : RT CAICRStatus :=
  fun i =>
    let r := f (network_context i) in
    mkRun (fst r) (set_network_context (snd r) i) [ev (fst r)].

Definition caicr_lldb_begin_transaction : RT CAICRStatus :=
  lldb_call lldb_begin_transaction E_lldb_begin_transaction.

Definition caicr_lldb_commit_transaction : RT CAICRStatus :=
  lldb_call lldb_commit_transaction E_lldb_commit_transaction.

Definition caicr_lldb_rollback_transaction : RT CAICRStatus :=
  lldb_call lldb_rollback_transaction E_lldb_rollback_transaction.

Definition caicr_lldb_store_operation (op : CAICROperation) : RT CAICRStatus :=
  lldb_call (fun d => lldb_store_operation d op) (E_lldb_store_operation op).

Definition caicr_lldb_mark_operation_undone (id : Z) : RT CAICRStatus :=
  lldb_call (fun d => lldb_mark_operation_undone d id)
    (E_lldb_mark_operation_undone id).

Definition caicr_lldb_shutdown : RT CAICRStatus :=
  lldb_call lldb_shutdown E_lldb_shutdown.

(** [caicr_lldb_get_last_operation] also writes its out-parameter. *)
Definition caicr_lldb_get_last_operation
    : RT (CAICRStatus * option CAICROperation) :=
  fun i =>
    let r := lldb_get_last_operation (lldb_context i) in
    mkRun (fst r) (set_lldb_context (snd r) i)
      [E_lldb_get_last_operation (fst (fst r)) (snd (fst r))].

Definition caicr_network_distribute_operation (op : CAICROperation)
    : RT CAICRStatus :=
  network_call (fun n => network_distribute_operation n op)
    (E_network_distribute_operation op).

Definition caicr_network_sync_state : RT CAICRStatus :=
  network_call network_sync_state E_network_sync_state.

Definition caicr_network_get_pending_operations
    : RT (CAICRStatus * list CAICROperation) :=
  fun i =>
    let r := network_get_pending_operations (network_context i) in
    mkRun (fst r) (set_network_context (snd r) i)
      [E_network_get_pending_operations (fst (fst r)) (snd (fst r))].

Definition caicr_network_free_operations (operations : list CAICROperation)
    : RT CAICRStatus :=
  network_call (fun n => network_free_operations n operations)
    (fun _ => E_network_free_operations operations).

Definition caicr_network_shutdown : RT CAICRStatus :=
  network_call network_shutdown E_network_shutdown.

(** *** caicr_submit_operation *)

Definition caicr_submit_operation (instance : Ptr)
    (operation : option CAICROperation) : RT CAICRStatus :=
  match instance, operation with
  | Addr, Some op =>
      mtx_lock ;;
      status <- caicr_lldb_begin_transaction ;;
      if failed status then
        mtx_unlock ;; ret status
      else
        status <- caicr_lldb_store_operation op ;;
        if failed status then
          caicr_lldb_rollback_transaction ;;
          mtx_unlock ;;
          ret status
        else
          status <- caicr_lldb_commit_transaction ;;
          mtx_unlock ;;
          if failed status then ret status
          else caicr_network_distribute_operation op
  | _, _ => ret CAICR_ERROR_INVALID_PARAMETER
  end.


(** The events [caicr_submit_operation] opens with once [begin] succeeded. *)
Definition submit_prefix (i : Inst) (op : CAICROperation) : list Event :=
  let b := lldb_begin_transaction (lldb_context i) in
  [E_mtx_lock; E_lldb_begin_transaction (fst b);
   E_lldb_store_operation op (fst (lldb_store_operation (snd b) op))].

(** *** caicr_free_operation *)

(** The three strings and the struct go in one [E_free_operation]. *)
Definition caicr_free_operation (operation : option CAICROperation)
    : RT unit :=
  match operation with
  | None => ret tt
  | Some op => emit (E_free_operation op)
  end.

(** *** caicr_undo *)

(** The initialiser of [reverse_operation] in [caicr_undo], with its three
    [strdup] calls: of the fetched operation's path, of its content when it
    is a delete, and of the instance's own identifier.  [None] when one of
    them is [strdup(NULL)] and the process dies; the order in which C
    evaluates the three is not fixed, and no other call comes between
    them. *)
Definition reverse_operation (last_operation : CAICROperation)
    (instance_config_id : string) : option CAICROperation :=
  match strdup Blk_reverse_file_path (file_path last_operation),
        (if optype_eqb (type last_operation) CAICR_OP_DELETE
         then strdup Blk_reverse_content (content last_operation)
         else Copy None),
        strdup Blk_reverse_instance_id (Some instance_config_id) with
  | Copy path, Copy text, Copy own =>
      Some
        {| type :=
             if optype_eqb (type last_operation) CAICR_OP_INSERT
             then CAICR_OP_DELETE
             else if optype_eqb (type last_operation) CAICR_OP_DELETE
                  then CAICR_OP_INSERT
                  else CAICR_OP_REPLACE;
           file_path := path;
           line_number := line_number last_operation;
           column_number := column_number last_operation;
           content := text;
           content_length :=
             if optype_eqb (type last_operation) CAICR_OP_DELETE
             then content_length last_operation else 0;
           timestamp_ns := 0;
           instance_id := own;
           operation_id := 0 |}
  | _, _, _ => None
  end.

Definition free_reverse_operation : RT unit :=
  free Blk_reverse_file_path ;;
  free Blk_reverse_content ;;
  free Blk_reverse_instance_id.

(** When the initialiser dies the process is gone at that point: the mutex
    is held and the transaction, begun and marked, is neither committed nor
    rolled back. *)
Definition caicr_undo (instance : Ptr) : RT Outcome :=
  match instance with
  | NULL => ret (Returned CAICR_ERROR_INVALID_PARAMETER)
  | Addr =>
      mtx_lock ;;
      got <- caicr_lldb_get_last_operation ;;
      let status := fst got in
      match snd got with
      | Some last_operation =>
          if failed status then
            mtx_unlock ;; ret (Returned status)
          else
            status <- caicr_lldb_begin_transaction ;;
            if failed status then
              caicr_free_operation (Some last_operation) ;;
              mtx_unlock ;;
              ret (Returned status)
            else
              status <- caicr_lldb_mark_operation_undone
                          (operation_id last_operation) ;;
              if failed status then
                caicr_lldb_rollback_transaction ;;
                caicr_free_operation (Some last_operation) ;;
                mtx_unlock ;;
                ret (Returned status)
              else
                own_id <- gets (fun i => config_instance_id (config i)) ;;
                match reverse_operation last_operation own_id with
                | None => ret Crashed
                | Some reverse =>
                    status <- caicr_lldb_commit_transaction ;;
                    mtx_unlock ;;
                    if failed status then
                      free_reverse_operation ;;
                      caicr_free_operation (Some last_operation) ;;
                      ret (Returned status)
                    else
                      status <- caicr_network_distribute_operation reverse ;;
                      free_reverse_operation ;;
                      caicr_free_operation (Some last_operation) ;;
                      ret (Returned status)
                end
      | None =>
          mtx_unlock ;;
          ret (Returned (if failed status then status
                         else CAICR_ERROR_OPERATION_EXECUTION))
      end
  end.

(** *** caicr_redo *)

(** The body is [return CAICR_SUCCESS;] under a comment that the
    implementation is left out. *)
Definition caicr_redo (instance : Ptr) : RT CAICRStatus :=
  ret CAICR_SUCCESS.

(** *** caicr_register_operation_callback *)

Definition caicr_register_operation_callback (instance : Ptr)
    (cb : option CAICROperationCallback) (user_data : UserData)
    : RT CAICRStatus :=
  match instance with
  | NULL => ret CAICR_ERROR_INVALID_PARAMETER
  | Addr =>
      mtx_lock ;;
      modify (set_callback cb user_data) ;;
      mtx_unlock ;;
      ret CAICR_SUCCESS
  end.

(** *** caicr_shutdown *)

Definition caicr_shutdown (instance : Ptr) : RT CAICRStatus :=
  match instance with
  | NULL => ret CAICR_ERROR_INVALID_PARAMETER
  | Addr =>
      atomic_store_is_running false ;;
      thrd_join ;;
      caicr_network_shutdown ;;
      caicr_lldb_shutdown ;;
      mtx_destroy ;;
      free Blk_config_instance_id ;;
      free Blk_config_project_root ;;
      free Blk_config_lldb_database_path ;;
      free Blk_instance ;;
      ret CAICR_SUCCESS
  end.

(** The calls of [caicr_shutdown] on a non-NULL handle. *)
Definition shutdown_calls (i : Inst) : list Event :=
  [E_atomic_store false; E_thrd_join;
   E_network_shutdown (fst (network_shutdown (network_context i)));
   E_lldb_shutdown (fst (lldb_shutdown (lldb_context i)));
   E_mtx_destroy;
   E_free Blk_config_instance_id; E_free Blk_config_project_root;
   E_free Blk_config_lldb_database_path; E_free Blk_instance].

(** *** caicr_sync_thread_func *)

(** [sleep_time]: seconds and nanoseconds of [sync_interval_ms]. *)
Definition sleep_time (interval_ms : Z) : Z * Z :=
  (interval_ms / 1000, (interval_ms mod 1000) * 1000000).

Definition thrd_sleep : RT unit :=
  t <- gets (fun i => sleep_time (sync_interval_ms (config i))) ;;
  emit (E_thrd_sleep (fst t) (snd t)).

(** The inner [while (current != NULL)] over the batch. *)
Fixpoint store_operations (operations : list CAICROperation) : RT unit :=
  match operations with
  | [] => ret tt
  | current :: next =>
      caicr_lldb_store_operation current ;;
      store_operations next
  end.

(** The store calls of a batch started on state [d], and the state the last
    of them leaves. *)
Fixpoint store_events (batch : list CAICROperation) (d : DB) : list Event :=
  match batch with
  | [] => []
  | op :: rest =>
      E_lldb_store_operation op (fst (lldb_store_operation d op))
      :: store_events rest (snd (lldb_store_operation d op))
  end.

Fixpoint store_result (batch : list CAICROperation) (d : DB) : DB :=
  match batch with
  | [] => d
  | op :: rest => store_result rest (snd (lldb_store_operation d op))
  end.

(** One pass through the body of the outer [while]. *)
Definition sync_iteration : RT unit :=
  caicr_network_sync_state ;;
  got <- caicr_network_get_pending_operations ;;
  (if failed (fst got) then ret tt
   else
     cb <- gets callback ;;
     match snd got, cb with
     | _ :: _, Some f =>
         user_data <- gets callback_user_data ;;
         emit (E_callback f (snd got) user_data) ;;
         mtx_lock ;;
         store_operations (snd got) ;;
         mtx_unlock ;;
         caicr_network_free_operations (snd got) ;;
         ret tt
     | _, _ => ret tt
     end) ;;
  thrd_sleep.

(** The thread function.  [is_running] is cleared by [caicr_shutdown] on
    another thread, so the loop is cut at [fuel] passes: [Some 0] is the
    [return 0] after the loop, [None] a loop still going. *)
Fixpoint caicr_sync_thread_func (fuel : nat) : RT (option Z) :=
  match fuel with
  | O => ret None
  | S fuel' =>
      running <- atomic_load_is_running ;;
      if running then sync_iteration ;; caicr_sync_thread_func fuel'
      else ret (Some 0)
  end.

(** *** caicr_initialize *)

(** What the C library answers during [caicr_initialize]: whether [calloc],
    each [strdup], [mtx_init] and [thrd_create] succeed. *)
Record Env : Type := mkEnv {
  calloc_ok : bool;
  strdup_ok : Block -> bool;
  mtx_init_ok : bool;
  thrd_create_ok : bool
}.

(** The four [free] calls every error path after the copies ends with. *)
Definition free_instance_blocks : list Event :=
  [E_free Blk_config_instance_id; E_free Blk_config_project_root;
   E_free Blk_config_lldb_database_path; E_free Blk_instance].

(** The state threaded here is the caller's handle variable [*instance]:
    [None] until the last statement writes the new instance into it. *)
Definition caicr_initialize (env : Env) (cfg : option CAICRConfig)
    (instance : Ptr) : Run (option Inst) CAICRStatus :=
  match cfg, instance with
  | Some c, Addr =>
      if negb (calloc_ok env) then mkRun CAICR_ERROR_OUT_OF_MEMORY None []
      else if negb (strdup_ok env Blk_config_instance_id
                    && strdup_ok env Blk_config_project_root
                    && strdup_ok env Blk_config_lldb_database_path) then
        mkRun CAICR_ERROR_OUT_OF_MEMORY None free_instance_blocks
      else if negb (mtx_init_ok env) then
        mkRun CAICR_ERROR_UNKNOWN None (E_mtx_init :: free_instance_blocks)
      else
        let l := lldb_initialize (lldb_database_path c)
                   (max_history_entries c) in
        let ev_l := E_lldb_initialize (lldb_database_path c)
                      (max_history_entries c) (fst l) in
        if failed (fst l) then
          mkRun (fst l) None
            ([E_mtx_init; ev_l; E_mtx_destroy] ++ free_instance_blocks)
        else
          let network_config :=
            {| net_instance_id := config_instance_id c;
               port := coordination_port c;
               net_encryption_enabled := encryption_enabled c |} in
          let n := network_initialize network_config in
          let ev_n := E_network_initialize network_config (fst n) in
          if failed (fst n) then
            mkRun (fst n) None
              ([E_mtx_init; ev_l; ev_n;
                E_lldb_shutdown (fst (lldb_shutdown (snd l)));
                E_mtx_destroy] ++ free_instance_blocks)
          else if negb (thrd_create_ok env) then
            mkRun CAICR_ERROR_UNKNOWN None
              ([E_mtx_init; ev_l; ev_n; E_atomic_store true; E_thrd_create;
                E_atomic_store false;
                E_network_shutdown (fst (network_shutdown (snd n)));
                E_lldb_shutdown (fst (lldb_shutdown (snd l)));
                E_mtx_destroy] ++ free_instance_blocks)
          else
            mkRun CAICR_SUCCESS
              (Some {| config := c;
                       lldb_context := snd l;
                       network_context := snd n;
                       mutex := false;
                       is_running := true;
                       sync_thread := true;
                       callback := None;
                       callback_user_data := None |})
              [E_mtx_init; ev_l; ev_n; E_atomic_store true; E_thrd_create]
  | _, _ => mkRun CAICR_ERROR_INVALID_PARAMETER None []
  end.

End Runtime.

(** ** The lifetime of an instance *)

(** What a non-NULL handle designates between two calls: the instance
    struct, or nothing any more once [free(instance)] has run. *)
Inductive Target (I : Type) : Type :=
| Live (i : I)
| Freed.

Arguments Live {I}.
Arguments Freed {I}.

Definition frees_instance (e : Event) : bool :=
  match e with E_free Blk_instance => true | _ => false end.

(** What the handle designates after a call that ran on the live
    instance. *)
Definition target_after {I A : Type} (r : Run I A) : Target I :=
  if existsb frees_instance (calls r) then Freed else Live (state r).

(** A call either runs, or has no defined behaviour. *)
Inductive Behaviour (I A : Type) : Type :=
| Defined (r : Run I A)
| Undefined.

Arguments Defined {I A}.
Arguments Undefined {I A}.

(** A call of an entry point that starts by reading the struct behind its
    handle, as [caicr_shutdown], [caicr_submit_operation], [caicr_undo] and
    [caicr_register_operation_callback] do once the handle is not NULL.  On
    a freed struct that read is a use after free: C gives the call no
    behaviour. *)
Definition through {I A : Type} (entry : M I A) (t : Target I)
    : Behaviour I A :=
  match t with
  | Live i => Defined (entry i)
  | Freed => Undefined
  end.

(** ** Backends to run the runtime against *)

(** caicr_lldb.c and caicr_network.c never fail and keep nothing.  To run the
    error paths of caicr.c the development uses two test doubles: a
    transactional log that can be told to fail one call, and a network peer
    with an inbox and a programmable broadcast status. *)
Module Double.

Inductive Call : Type :=
| Call_begin | Call_store | Call_commit | Call_rollback
| Call_get_last | Call_mark.

Definition call_eqb (a b : Call) : bool :=
  match a, b with
  | Call_begin, Call_begin | Call_store, Call_store
  | Call_commit, Call_commit | Call_rollback, Call_rollback
  | Call_get_last, Call_get_last | Call_mark, Call_mark => true
  | _, _ => false
  end.

(** A logged operation with its undone flag. *)
Definition Entry : Type := (CAICROperation * bool)%type.

(** Modelled from the spec: the persistence backend behind caicr_lldb.h,
    whose bodies in the repository are placeholders.  It follows section
    4.2: transactions do not nest, [store] is valid only inside an open
    transaction and assigns the next [operationId], [getLast] is a snapshot
    of the newest committed entry, the undone flag is kept per entry.
    [fault] makes one kind of call fail with a chosen status and no
    effect. *)
Record LogDB : Type := mkLogDB {
  committed : list Entry;
  open_txn : option (list Entry);
  next_id : Z;
  fault : option (Call * CAICRStatus)
}.

(** The status the armed fault gives to a call of kind [c], if any. *)
Definition faulty (c : Call) (d : LogDB) : option CAICRStatus :=
  match fault d with
  | Some (c', s) => if call_eqb c c' then Some s else None
  | None => None
  end.

(** Modelled from the spec: a fresh log; the first identifier is 1. *)
Definition empty_log (f : option (Call * CAICRStatus)) : LogDB :=
  mkLogDB [] None 1 f.

(** The stored copy of an operation, with the identifier the log gives it. *)
Definition with_id (id : Z) (op : CAICROperation) : CAICROperation :=
  mkOperation (type op) (file_path op) (line_number op) (column_number op)
    (content op) (content_length op) (timestamp_ns op) (instance_id op) id.

(** Set the undone flag of the entry with identifier [id]. *)
Definition set_flag (id : Z) (b : bool) (l : list Entry) : list Entry :=
  map (fun e => if operation_id (fst e) =? id then (fst e, b) else e) l.

(** Whether an entry carries identifier [id]. *)
Definition has_id (id : Z) (l : list Entry) : bool :=
  existsb (fun e => operation_id (fst e) =? id) l.

(** Modelled from the spec: [beginTransaction]; nesting is an error. *)
Definition begin (d : LogDB) : CAICRStatus * LogDB :=
  match faulty Call_begin d, open_txn d with
  | Some s, _ => (s, d)
  | None, Some _ => (CAICR_ERROR_PERSISTENCE, d)
  | None, None =>
      (CAICR_SUCCESS,
       mkLogDB (committed d) (Some (committed d)) (next_id d) (fault d))
  end.

(** Modelled from the spec: [store], valid only inside a transaction,
    appends to the working copy under the next identifier. *)
Definition store (d : LogDB) (op : CAICROperation) : CAICRStatus * LogDB :=
  match faulty Call_store d, open_txn d with
  | Some s, _ => (s, d)
  | None, None => (CAICR_ERROR_PERSISTENCE, d)
  | None, Some w =>
      (CAICR_SUCCESS,
       mkLogDB (committed d) (Some (w ++ [(with_id (next_id d) op, false)]))
         (next_id d + 1) (fault d))
  end.

(** Modelled from the spec: [commitTransaction] makes the working copy the
    log; a failed commit changes nothing and leaves the transaction open. *)
Definition commit (d : LogDB) : CAICRStatus * LogDB :=
  match faulty Call_commit d, open_txn d with
  | Some s, _ => (s, d)
  | None, None => (CAICR_ERROR_PERSISTENCE, d)
  | None, Some w => (CAICR_SUCCESS, mkLogDB w None (next_id d) (fault d))
  end.

(** Modelled from the spec: [rollbackTransaction] drops the working copy. *)
Definition rollback (d : LogDB) : CAICRStatus * LogDB :=
  match faulty Call_rollback d, open_txn d with
  | Some s, _ => (s, d)
  | None, None => (CAICR_ERROR_PERSISTENCE, d)
  | None, Some _ =>
      (CAICR_SUCCESS, mkLogDB (committed d) None (next_id d) (fault d))
  end.

(** Modelled from the spec: [getLast], the newest committed operation. *)
Definition get_last (d : LogDB)
    : CAICRStatus * option CAICROperation * LogDB :=
  match faulty Call_get_last d with
  | Some s => (s, None, d)
  | None => (CAICR_SUCCESS, option_map fst (hd_error (rev (committed d))), d)
  end.

(** Modelled from the spec: [getHistory], newest first, at most [limit]. *)
Definition get_history (d : LogDB) (limit : Z)
    : CAICRStatus * list CAICROperation * LogDB :=
  (CAICR_SUCCESS, firstn (Z.to_nat limit) (map fst (rev (committed d))), d).

(** Modelled from the spec: [markUndone] ([b] true) and [markRedone]
    ([b] false), inside a transaction, on an identifier the log holds. *)
Definition mark (b : bool) (d : LogDB) (id : Z) : CAICRStatus * LogDB :=
  match faulty Call_mark d, open_txn d with
  | Some s, _ => (s, d)
  | None, None => (CAICR_ERROR_PERSISTENCE, d)
  | None, Some w =>
      if has_id id w then
        (CAICR_SUCCESS,
         mkLogDB (committed d) (Some (set_flag id b w)) (next_id d)
           (fault d))
      else (CAICR_ERROR_LLDB_QUERY, d)
  end.

#[export] Instance log_lldb : LLDBPort LogDB := {
  lldb_initialize := fun _ _ => (CAICR_SUCCESS, empty_log None);
  lldb_begin_transaction := begin;
  lldb_commit_transaction := commit;
  lldb_rollback_transaction := rollback;
  lldb_store_operation := store;
  lldb_get_last_operation := get_last;
  lldb_get_operation_history := get_history;
  lldb_mark_operation_undone := mark true;
  lldb_mark_operation_redone := mark false;
  lldb_shutdown := fun d => (CAICR_SUCCESS, d)
}.

(** Modelled from the spec: the network backend behind caicr_network.h
    (section 4.3), whose bodies in the repository are placeholders:
    [distribute] hands the operation to the peers or reports
    [broadcast], [drainPending] returns the inbox and empties it. *)
Record Peer : Type := mkPeer {
  sent : list CAICROperation;
  inbox : list CAICROperation;
  broadcast : CAICRStatus
}.

#[export] Instance peer_network : NetworkPort Peer := {
  network_initialize := fun _ => (CAICR_SUCCESS, mkPeer [] [] CAICR_SUCCESS);
  network_distribute_operation := fun n op =>
    if failed (broadcast n) then (broadcast n, n)
    else (CAICR_SUCCESS, mkPeer (sent n ++ [op]) (inbox n) (broadcast n));
  network_sync_state := fun n => (CAICR_SUCCESS, n);
  network_get_pending_operations := fun n =>
    (CAICR_SUCCESS, inbox n, mkPeer (sent n) [] (broadcast n));
  network_free_operations := fun n _ => (CAICR_SUCCESS, n);
  network_shutdown := fun n => (CAICR_SUCCESS, n)
}.

(** A running instance over the doubles. *)
Definition instance_over (d : LogDB) (n : Peer)
    (cb : option CAICROperationCallback) : CAICRInstance_t LogDB Peer :=
  {| config := mkConfig "inst-1" "/proj" "/proj/.caicr_history.db"
                 15001 1000 1000 true;
     lldb_context := d;
     network_context := n;
     mutex := false;
     is_running := true;
     sync_thread := true;
     callback := cb;
     callback_user_data := None |}.

(** A peer with nothing pending whose broadcasts succeed. *)
Definition quiet : Peer := mkPeer [] [] CAICR_SUCCESS.

End Double.

(** The operation the sample client of cursor_ai_client.c submits for a
    typed line [command]: an insert at 1:1 of sample.txt whose
    [timestamp_ns] and [operation_id] are left at 0 for the runtime. *)
Definition client_operation (own_id command : string) : CAICROperation :=
  {| type := CAICR_OP_INSERT;
     file_path := Some "sample.txt"%string;
     line_number := 1;
     column_number := 1;
     content := Some command;
     content_length := Z.of_nat (String.length command);
     timestamp_ns := 0;
     instance_id := Some own_id;
     operation_id := 0 |}.

Import Double.

(** An instance over the placeholder ports of the repository. *)
Definition placeholder_instance : CAICRInstance_t unit bool :=
  {| config := mkConfig "inst-1" "/proj" "/proj/.caicr_history.db"
                 15001 1000 1000 true;
     lldb_context := tt;
     network_context := true;
     mutex := false;
     is_running := true;
     sync_thread := true;
     callback := None;
     callback_user_data := None |}.

(** A C library on which every allocation and thread call succeeds. *)
Definition all_ok : Env := mkEnv true (fun _ => true) true true.

(** The two operations of the scenario of section 8 of the specification. *)
Definition insert_hi : CAICROperation :=
  mkOperation CAICR_OP_INSERT (Some "f.txt"%string) 1 1 (Some "hi"%string)
    2 0 (Some "inst-1"%string) 0.

Definition delete_hi : CAICROperation :=
  mkOperation CAICR_OP_DELETE (Some "f.txt"%string) 1 1 (Some "hi"%string)
    2 0 (Some "inst-1"%string) 0.

(** The log after [insert_hi] and then [delete_hi] were committed. *)
Definition two_entries : LogDB :=
  mkLogDB [(with_id 1 insert_hi, false); (with_id 2 delete_hi, false)]
    None 3 None.

(** A delete that carries no content, as the reversal of an insert is. *)
Definition bare_delete : CAICROperation :=
  mkOperation CAICR_OP_DELETE (Some "f.txt"%string) 1 1 None 0 0
    (Some "inst-2"%string) 0.

(** A log whose last entry is that delete, stored from a peer. *)
Definition bare_delete_log : LogDB :=
  mkLogDB [(with_id 1 bare_delete, false)] None 2 None.

(** ** Reading a trace *)

(** How often a kind of call occurs in a trace. *)
Definition occurrences (p : Event -> bool) (l : list Event) : nat :=
  List.length (filter p l).

Definition is_free (e : Event) : bool :=
  match e with E_free _ => true | _ => false end.

Definition is_free_operation (e : Event) : bool :=
  match e with E_free_operation _ => true | _ => false end.

Definition is_callback (e : Event) : bool :=
  match e with E_callback _ _ _ => true | _ => false end.

Definition is_sleep (e : Event) : bool :=
  match e with E_thrd_sleep _ _ => true | _ => false end.

Definition is_mtx_init (e : Event) : bool :=
  match e with E_mtx_init => true | _ => false end.

Definition is_mtx_destroy (e : Event) : bool :=
  match e with E_mtx_destroy => true | _ => false end.

Definition is_thrd_create (e : Event) : bool :=
  match e with E_thrd_create => true | _ => false end.

Definition is_thrd_join (e : Event) : bool :=
  match e with E_thrd_join => true | _ => false end.

Definition is_mtx_lock (e : Event) : bool :=
  match e with E_mtx_lock => true | _ => false end.

Definition is_network_free (e : Event) : bool :=
  match e with E_network_free_operations _ => true | _ => false end.

Definition is_mark (e : Event) : bool :=
  match e with E_lldb_mark_operation_undone _ _ => true | _ => false end.

(** A port is open once its initialiser has answered success, and closed by
    its shutdown. *)
Definition opens_lldb (e : Event) : bool :=
  match e with E_lldb_initialize _ _ r => negb (failed r) | _ => false end.

Definition closes_lldb (e : Event) : bool :=
  match e with E_lldb_shutdown _ => true | _ => false end.

Definition opens_network (e : Event) : bool :=
  match e with E_network_initialize _ r => negb (failed r) | _ => false end.

Definition closes_network (e : Event) : bool :=
  match e with E_network_shutdown _ => true | _ => false end.

(** Calls that create or destroy what the instance owns: ports, mutex and
    thread. *)
Definition is_lifecycle (e : Event) : bool :=
  match e with
  | E_lldb_initialize _ _ _ | E_lldb_shutdown _
  | E_network_initialize _ _ | E_network_shutdown _
  | E_mtx_init | E_mtx_destroy | E_thrd_create | E_thrd_join => true
  | _ => false
  end.

(** A transaction is open once [begin] has answered success. *)
Definition begun (e : Event) : bool :=
  match e with E_lldb_begin_transaction r => negb (failed r) | _ => false end.

(** Calls that read or write the operation log through an open context. *)
Definition is_log_access (e : Event) : bool :=
  match e with
  | E_lldb_begin_transaction _ | E_lldb_commit_transaction _
  | E_lldb_rollback_transaction _ | E_lldb_store_operation _ _
  | E_lldb_get_last_operation _ _ | E_lldb_mark_operation_undone _ _ => true
  | _ => false
  end.

(** Calls that leave the instance: to the network port or to the user's
    callback. *)
Definition is_outbound (e : Event) : bool :=
  match e with
  | E_network_distribute_operation _ _ | E_network_sync_state _
  | E_network_get_pending_operations _ _ | E_network_free_operations _
  | E_callback _ _ _ => true
  | _ => false
  end.

(** The locking discipline of a trace, read from left to right with [held]
    telling whether the instance mutex is held: a lock is taken only when
    free and released only when held, the log is accessed only under the
    lock, the network and the callback are called and the thread sleeps
    only outside it, and the trace ends with the mutex free. *)
Fixpoint disciplined (held : bool) (l : list Event) : bool :=
  match l with
  | [] => negb held
  | E_mtx_lock :: rest => negb held && disciplined true rest
  | E_mtx_unlock :: rest => held && disciplined false rest
  | E_thrd_sleep _ _ :: rest => negb held && disciplined held rest
  | e :: rest =>
      (if is_log_access e then held
       else if is_outbound e then negb held
       else true)
      && disciplined held rest
  end.

(** The same reading of a trace that may stop anywhere, as that of a call
    in which the process dies: [Some h] when no call in it breaks the
    discipline, [h] telling whether the mutex is held where it stops. *)
Fixpoint held_after (held : bool) (l : list Event) : option bool :=
  match l with
  | [] => Some held
  | E_mtx_lock :: rest => if held then None else held_after true rest
  | E_mtx_unlock :: rest => if held then held_after false rest else None
  | E_thrd_sleep _ _ :: rest => if held then None else held_after held rest
  | e :: rest =>
      if (if is_log_access e then held
          else if is_outbound e then negb held
          else true)
      then held_after held rest
      else None
  end.

(** ** cursor_ai_client.c: the sample client *)

(** What [main] prints, one constructor per [printf] call site, with the
    values it formats. *)
Inductive Printed : Type :=
| Print_usage
| Print_init_failed (code : Z)
| Print_banner (own_id project_path : string) (port : Z)
| Print_register_failed (code : Z)
| Print_help
| Print_prompt
| Print_undoing
| Print_undo_failed (code : Z)
| Print_redoing
| Print_redo_failed (code : Z)
| Print_submitting (command : string)
| Print_submit_failed (code : Z)
| Print_shutting_down.

(** The lines that report a failed command. *)
Definition is_failure_report (p : Printed) : bool :=
  match p with
  | Print_undo_failed _ | Print_redo_failed _ | Print_submit_failed _ => true
  | _ => false
  end.

(** What the C library hands to [main]: the value of [atoi(argv[2])], the
    text [uuid_unparse_lower] writes, the address of the client's
    [operation_callback], and the contents of [command] after each [fgets]
    that did not return NULL (the list ends where [fgets] returns NULL). *)
Record ClientEnv : Type := mkClientEnv {
  atoi_port : Z;
  uuid : string;
  operation_callback : CAICROperationCallback;
  reads : list string
}.

Definition EXIT_SUCCESS : Z := 0.
Definition EXIT_FAILURE : Z := 1.

(** How the client process ends: [main] returns an exit code, or the
    process is killed when a call into the runtime dies. *)
Inductive Exit : Type :=
| Exited (code : Z)
| Killed.

Definition newline : Ascii.ascii := Ascii.ascii_of_nat 10.

(** The removal of the trailing newline:
    [if (len > 0 && command[len - 1] == '\n') command[len - 1] = '\0']. *)
Definition strip_newline (command : string) : string :=
  let len := String.length command in
  match String.get (len - 1) command with
  | Some c =>
      if (0 <? len)%nat && Ascii.eqb c newline
      then String.substring 0 (len - 1) command
      else command
  | None => command
  end.

(** A typed line as [fgets] stores it: the text and its newline. *)
Definition line_of (text : string) : string :=
  String.append text (String newline EmptyString).

(** [snprintf(db_path, sizeof(db_path), "%s/.caicr_history.db", ...)] into
    the 1024-byte buffer: at most 1023 characters are kept. *)
Definition db_path_of (project_path : string) : string :=
  String.substring 0 1023
    (String.append project_path "/.caicr_history.db").

(** The configuration [main] builds; the port is [atoi]'s value converted
    to [uint16_t]. *)
Definition client_config (ce : ClientEnv) (project_path : string)
    : CAICRConfig :=
  {| config_instance_id := uuid ce;
     project_root := project_path;
     lldb_database_path := db_path_of project_path;
     coordination_port := atoi_port ce mod 65536;
     sync_interval_ms := 1000;
     max_history_entries := 1000;
     encryption_enabled := true |}.

(** The lines of a session that are submitted as text: those read before
    the first "q" that are neither "u" nor "r". *)
Fixpoint submitted_lines (lines : list string) : list string :=
  match lines with
  | [] => []
  | line :: rest =>
      let command := strip_newline line in
      if String.eqb command "q" then []
      else if String.eqb command "u" then submitted_lines rest
      else if String.eqb command "r" then submitted_lines rest
      else command :: submitted_lines rest
  end.

(** The number of undo commands read before the first "q". *)
Fixpoint undo_commands (lines : list string) : nat :=
  match lines with
  | [] => O
  | line :: rest =>
      let command := strip_newline line in
      if String.eqb command "q" then O
      else if String.eqb command "u" then S (undo_commands rest)
      else undo_commands rest
  end.

Section Client.

Context {DB NET : Type} {lldb : LLDBPort DB} {net : NetworkPort NET}
        {alloc : Allocator}.

Local Abbreviation Inst := (CAICRInstance_t DB NET).
Local Abbreviation RT := (M Inst).

(** The report after a command: printed only when the status is a
    failure. *)
Definition report (p : Z -> Printed) (status : CAICRStatus) : list Printed :=
  if failed status then [p (status_code status)] else [].

(** The [while (1)] of [main] over the remaining reads.  The value is
    whether the process is still alive when the loop is left, and what it
    has printed; the loop is left dead when [caicr_undo] dies.  The client's
    own [strdup] copies and their [free] are not calls of the runtime and
    leave no event. *)
Fixpoint client_loop (own_id : string) (lines : list string)
    : RT (bool * list Printed) :=
  match lines with
  | [] => ret (true, [Print_prompt])
  | line :: rest =>
      let command := strip_newline line in
      if String.eqb command "q" then ret (true, [Print_prompt])
      else if String.eqb command "u" then
        outcome <- caicr_undo Addr ;;
        match outcome with
        | Crashed => ret (false, [Print_prompt; Print_undoing])
        | Returned status =>
            out <- client_loop own_id rest ;;
            ret (fst out,
                 Print_prompt :: Print_undoing
                 :: report Print_undo_failed status ++ snd out)
        end
      else if String.eqb command "r" then
        status <- caicr_redo Addr ;;
        out <- client_loop own_id rest ;;
        ret (fst out,
             Print_prompt :: Print_redoing
             :: report Print_redo_failed status ++ snd out)
      else
        status <- caicr_submit_operation Addr
                    (Some (client_operation own_id command)) ;;
        out <- client_loop own_id rest ;;
        ret (fst out,
             Print_prompt :: Print_submitting command
             :: report Print_submit_failed status ++ snd out)
  end.

(** [main] after a successful [caicr_initialize]: register the callback,
    run the command loop, shut down.  A process that died in the loop
    neither prints the farewell nor shuts down. *)
Definition client_session (ce : ClientEnv) (project_path : string)
    : RT (Exit * list Printed) :=
  status <- caicr_register_operation_callback Addr
              (Some (operation_callback ce)) None ;;
  if failed status then
    caicr_shutdown Addr ;;
    ret (Exited EXIT_FAILURE,
         [Print_banner (uuid ce) project_path (atoi_port ce mod 65536);
          Print_register_failed (status_code status)])
  else
    out <- client_loop (uuid ce) (reads ce) ;;
    if fst out then
      caicr_shutdown Addr ;;
      ret (Exited EXIT_SUCCESS,
           Print_banner (uuid ce) project_path (atoi_port ce mod 65536)
           :: Print_help :: snd out ++ [Print_shutting_down])
    else
      ret (Killed,
           Print_banner (uuid ce) project_path (atoi_port ce mod 65536)
           :: Print_help :: snd out).

(** [main].  The state threaded is the handle variable [instance], NULL
    until [caicr_initialize] writes it; the value is how the process ends
    and what was printed.  Were [caicr_initialize] to answer success and
    leave the handle NULL, registration would answer
    [CAICR_ERROR_INVALID_PARAMETER], the shutdown of NULL would make no
    call, and [main] would exit with failure. *)
Definition client_main (env : Env) (ce : ClientEnv) (argv : list string)
    : Run (option Inst) (Exit * list Printed) :=
  match argv with
  | _ :: project_path :: _ :: _ =>
      let made := caicr_initialize env
                    (Some (client_config ce project_path)) Addr in
      if failed (result made) then
        mkRun (Exited EXIT_FAILURE,
               [Print_init_failed (status_code (result made))])
          (state made) (calls made)
      else
        match state made with
        | Some i =>
            let ran := client_session ce project_path i in
            mkRun (result ran) (Some (state ran)) (calls made ++ calls ran)
        | None =>
            mkRun (Exited EXIT_FAILURE,
                   [Print_banner (uuid ce) project_path
                      (atoi_port ce mod 65536);
                    Print_register_failed
                      (status_code CAICR_ERROR_INVALID_PARAMETER)])
              None (calls made)
        end
  | _ => mkRun (Exited EXIT_FAILURE, [Print_usage]) None []
  end.

End Client.

(** * Properties of the runtime *)

Lemma failed_true_iff (s : CAICRStatus) :
  failed s = true <-> s <> CAICR_SUCCESS.
Proof. destruct s; cbn; split; congruence. Qed.

Lemma failed_false_iff (s : CAICRStatus) :
  failed s = false <-> s = CAICR_SUCCESS.
Proof. destruct s; cbn; split; congruence. Qed.

(** What a sequence yields, from what its two parts yield. *)
Lemma result_bind {S A B : Type} (c : M S A) (f : A -> M S B) (s : S) :
  result (bind c f s) = result (f (result (c s)) (state (c s))).
Proof. unfold bind. destruct (c s); cbn. destruct (f _ _); reflexivity. Qed.

Lemma state_bind {S A B : Type} (c : M S A) (f : A -> M S B) (s : S) :
  state (bind c f s) = state (f (result (c s)) (state (c s))).
Proof. unfold bind. destruct (c s); cbn. destruct (f _ _); reflexivity. Qed.

Lemma calls_bind {S A B : Type} (c : M S A) (f : A -> M S B) (s : S) :
  calls (bind c f s)
  = calls (c s) ++ calls (f (result (c s)) (state (c s))).
Proof. unfold bind. destruct (c s); cbn. destruct (f _ _); reflexivity. Qed.

(** Unfold one runtime function down to the port calls. *)
Ltac run_runtime :=
  unfold caicr_submit_operation, caicr_undo, caicr_redo, caicr_shutdown,
    caicr_register_operation_callback, caicr_free_operation,
    free_reverse_operation, sync_iteration, thrd_sleep,
    caicr_lldb_begin_transaction, caicr_lldb_commit_transaction,
    caicr_lldb_rollback_transaction, caicr_lldb_store_operation,
    caicr_lldb_mark_operation_undone, caicr_lldb_shutdown,
    caicr_lldb_get_last_operation, caicr_network_distribute_operation,
    caicr_network_sync_state, caicr_network_get_pending_operations,
    caicr_network_free_operations, caicr_network_shutdown,
    mtx_lock, mtx_unlock, mtx_destroy, atomic_store_is_running,
    atomic_load_is_running, thrd_join, free, lldb_call, network_call,
    bind, ret, emit, gets, modify;
  cbn.

Section Submit.

Context {DB NET : Type} {lldb : LLDBPort DB} {net : NetworkPort NET}
        {alloc : Allocator}.

Local Abbreviation Inst := (CAICRInstance_t DB NET).

(** When [begin] itself fails there is no transaction: the lock is released
    and the status returned. *)
Lemma submit_begin_failure (i : Inst) (op : CAICROperation) :
  let b := lldb_begin_transaction (lldb_context i) in
  let r := caicr_submit_operation Addr (Some op) i in
  failed (fst b) = true ->
  result r = fst b /\
  calls r = [E_mtx_lock; E_lldb_begin_transaction (fst b); E_mtx_unlock] /\
  lldb_context (state r) = snd b.
Proof.
  intros b r Hb. subst b r. run_runtime. rewrite Hb. cbn. auto.
Qed.

(** The two persistence failures of a submission whose [begin] has
    succeeded: a failing [store] makes
    [caicr_submit_operation] call rollback before it releases the lock and
    returns [store]'s status, leaving the persistence layer as rollback left
    it; a failing [commit] makes it release the lock and return [commit]'s
    status with no rollback call, leaving the persistence layer as the
    failed [commit] left it.  In neither case is the operation
    distributed. *)
Theorem submit_persistence_failure (i : Inst) (op : CAICROperation) :
  let b := lldb_begin_transaction (lldb_context i) in
  let s := lldb_store_operation (snd b) op in
  let c := lldb_commit_transaction (snd s) in
  let rb := lldb_rollback_transaction (snd s) in
  let r := caicr_submit_operation Addr (Some op) i in
  failed (fst b) = false ->
  (failed (fst s) = true ->
     result r = fst s /\
     calls r = submit_prefix i op ++
               [E_lldb_rollback_transaction (fst rb); E_mtx_unlock] /\
     lldb_context (state r) = snd rb) /\
  (failed (fst s) = false -> failed (fst c) = true ->
     result r = fst c /\
     calls r = submit_prefix i op ++
               [E_lldb_commit_transaction (fst c); E_mtx_unlock] /\
     lldb_context (state r) = snd c).
Proof.
  intros b s c rb r Hb. subst b s c rb r. unfold submit_prefix.
  split.
  - intros Hs. run_runtime. rewrite Hb. cbn. rewrite Hs. cbn. auto.
  - intros Hs Hc. run_runtime. rewrite Hb. cbn. rewrite Hs. cbn.
    rewrite Hc. cbn. auto.
Qed.

(** C2: when the transaction has committed and the broadcast then fails,
    [caicr_submit_operation] returns the broadcast's status; the call to
    distribute comes after the unlock and is the last call made, so the
    persistence layer is left exactly as the successful commit left it. *)
Theorem submit_distribution_failure_keeps_commit
    (i : Inst) (op : CAICROperation) :
  let b := lldb_begin_transaction (lldb_context i) in
  let s := lldb_store_operation (snd b) op in
  let c := lldb_commit_transaction (snd s) in
  let d := network_distribute_operation (network_context i) op in
  let r := caicr_submit_operation Addr (Some op) i in
  failed (fst b) = false ->
  failed (fst s) = false ->
  failed (fst c) = false ->
  failed (fst d) = true ->
  result r = fst d /\
  result r <> CAICR_SUCCESS /\
  calls r = submit_prefix i op ++
            [E_lldb_commit_transaction (fst c); E_mtx_unlock;
             E_network_distribute_operation op (fst d)] /\
  lldb_context (state r) = snd c /\
  mutex (state r) = false.
Proof.
  intros b s c d r Hb Hs Hc Hd. subst b s c d r. unfold submit_prefix.
  run_runtime. rewrite Hb. cbn. rewrite Hs. cbn. rewrite Hc. cbn.
  repeat split; try reflexivity.
  apply failed_true_iff, Hd.
Qed.

(** The operation reaches [store] exactly as the caller passed it: no member
    is written on the way, [timestamp_ns] included. *)
Lemma submit_stores_operation_verbatim (i : Inst) (op : CAICROperation) :
  stored_ops (calls (caicr_submit_operation Addr (Some op) i)) =
    if failed (fst (lldb_begin_transaction (lldb_context i)))
    then [] else [op].
Proof.
  run_runtime.
  destruct (failed (fst (lldb_begin_transaction (lldb_context i)))); cbn;
    [ reflexivity | ].
  destruct (failed (fst (lldb_store_operation _ op))); cbn;
    [ reflexivity | ].
  destruct (failed (fst (lldb_commit_transaction _))); reflexivity.
Qed.

End Submit.

Section Undo.

Context {DB NET : Type} {lldb : LLDBPort DB} {net : NetworkPort NET}
        {alloc : Allocator}.

Local Abbreviation Inst := (CAICRInstance_t DB NET).





(** C5: when [get_last] succeeds with no operation (an empty log),
    [caicr_undo] returns [CAICR_ERROR_OPERATION_EXECUTION], the status the
    runtime uses for "nothing to undo"; it has locked, read and unlocked, so
    no transaction was begun, nothing was marked undone and nothing was
    distributed, and both ports are as the read left them. *)
Theorem undo_empty_log (i : Inst) :
  let g := lldb_get_last_operation (lldb_context i) in
  let r := caicr_undo Addr i in
  fst (fst g) = CAICR_SUCCESS ->
  snd (fst g) = None ->
  result r = CAICR_ERROR_OPERATION_EXECUTION /\
  calls r =
    [E_mtx_lock; E_lldb_get_last_operation CAICR_SUCCESS None;
     E_mtx_unlock] /\
  lldb_context (state r) = snd g /\
  network_context (state r) = network_context i.
Proof.
  intros g r Hs Hn. subst g r. run_runtime. rewrite Hn, Hs. cbn. auto.
Qed.

End Undo.

Section Lifecycle.

Context {DB NET : Type} {lldb : LLDBPort DB} {net : NetworkPort NET}
        {alloc : Allocator}.

Local Abbreviation Inst := (CAICRInstance_t DB NET).

(** C6: [caicr_redo] is a stub: for every handle and every instance,
    whatever the log holds, it returns [CAICR_SUCCESS] having made no call
    at all (no lock, no transaction, no mark-redone, no distribute) and
    having left the instance as it was. *)
Theorem redo_is_a_stub (instance : Ptr) (i : Inst) :
  caicr_redo instance i = mkRun CAICR_SUCCESS i [].
Proof. reflexivity. Qed.

(** The entry points that do test their pointers: a NULL instance, a NULL
    operation or a NULL configuration or out-parameter gives
    [CAICR_ERROR_INVALID_PARAMETER] with no call made and the instance
    untouched. *)
Lemma null_rejected (i : Inst) (env : Env) (cfg : option CAICRConfig)
    (operation : option CAICROperation) (instance : Ptr)
    (cb : option CAICROperationCallback) (user_data : UserData) :
  let invalid := mkRun CAICR_ERROR_INVALID_PARAMETER i [] in
  caicr_initialize env None instance
    = mkRun CAICR_ERROR_INVALID_PARAMETER (@None Inst) [] /\
  caicr_initialize env cfg NULL
    = mkRun CAICR_ERROR_INVALID_PARAMETER (@None Inst) [] /\
  caicr_register_operation_callback NULL cb user_data i = invalid /\
  caicr_submit_operation NULL operation i = invalid /\
  caicr_submit_operation instance None i = invalid /\
  caicr_undo NULL i
    = mkRun (Returned CAICR_ERROR_INVALID_PARAMETER) i [] /\
  caicr_shutdown NULL i = invalid /\
  caicr_free_operation None i = mkRun tt i [].
Proof.
  cbv zeta. repeat split; try reflexivity.
  - destruct cfg; reflexivity.
  - destruct instance; reflexivity.
Qed.

(** C9: every entry point but [caicr_redo] rejects its NULL arguments with
    [CAICR_ERROR_INVALID_PARAMETER], making no call and changing nothing,
    and [caicr_free_operation] of NULL does nothing; [caicr_redo] of a NULL
    instance returns [CAICR_SUCCESS]. *)
Theorem null_checks_and_redo (i : Inst) (env : Env)
    (cfg : option CAICRConfig) (operation : option CAICROperation)
    (instance : Ptr) (cb : option CAICROperationCallback)
    (user_data : UserData) :
  let invalid := mkRun CAICR_ERROR_INVALID_PARAMETER i [] in
  (caicr_initialize env None instance
     = mkRun CAICR_ERROR_INVALID_PARAMETER (@None Inst) [] /\
   caicr_initialize env cfg NULL
     = mkRun CAICR_ERROR_INVALID_PARAMETER (@None Inst) [] /\
   caicr_register_operation_callback NULL cb user_data i = invalid /\
   caicr_submit_operation NULL operation i = invalid /\
   caicr_submit_operation instance None i = invalid /\
   caicr_undo NULL i
     = mkRun (Returned CAICR_ERROR_INVALID_PARAMETER) i [] /\
   caicr_shutdown NULL i = invalid /\
   caicr_free_operation None i = mkRun tt i []) /\
  result (caicr_redo NULL i) = CAICR_SUCCESS /\
  result (caicr_redo NULL i) <> CAICR_ERROR_INVALID_PARAMETER.
Proof.
  cbv zeta. split.
  - exact (null_rejected i env cfg operation instance cb user_data).
  - split; [ reflexivity | cbn; discriminate ].
Qed.

(** C7 (amended): [caicr_shutdown] has no already-shut-down state and no
    status for it.  On a NULL handle it returns
    [CAICR_ERROR_INVALID_PARAMETER] and touches nothing.  On the handle of a
    live instance it returns [CAICR_SUCCESS] after clearing the flag,
    joining the thread, closing the network port and then the persistence
    port, destroying the mutex and freeing the three configuration strings
    and the instance; the handle then designates a freed struct, and a
    second [caicr_shutdown] through it is a use after free with no defined
    behaviour: it is not answered with an error. *)
Theorem shutdown_has_no_guard (instance : Ptr) (i : Inst) :
  let r := caicr_shutdown instance i in
  match instance with
  | NULL =>
      result r = CAICR_ERROR_INVALID_PARAMETER /\ calls r = [] /\
      target_after r = Live i
  | Addr =>
      result r = CAICR_SUCCESS /\
      calls r = shutdown_calls i /\
      is_running (state r) = false /\
      List.length (filter is_release (calls r)) = 7%nat /\
      target_after r = Freed /\
      through (caicr_shutdown Addr) (target_after r) = Undefined
  end.
Proof.
  destruct instance; cbv zeta; unfold shutdown_calls, through, target_after;
    run_runtime; repeat split; reflexivity.
Qed.

(** C8 (amended): [caicr_submit_operation] never reads [is_running].  With
    the flag set or cleared it makes the same calls, returns the same
    status and leaves the same instance (up to the flag), so a submission
    made after the shutdown signal is accepted and processed like any
    other.  Whatever the flag, a submission whose store fails has its
    rollback called, and one whose commit succeeds has committed, in both
    cases before the lock is released and before anything is distributed,
    and the persistence layer is left as that rollback or commit left it.
    (What a failing commit leaves behind is not part of this statement.) *)
Theorem submit_ignores_running_flag
    (instance : Ptr) (operation : option CAICROperation) (b : bool)
    (i : Inst) :
  let r := caicr_submit_operation instance operation i in
  let r' := caicr_submit_operation instance operation (set_is_running b i) in
  result r' = result r /\
  calls r' = calls r /\
  state r' = set_is_running b (state r) /\
  match instance, operation with
  | Addr, Some op =>
      let bg := lldb_begin_transaction (lldb_context i) in
      let s := lldb_store_operation (snd bg) op in
      let rb := lldb_rollback_transaction (snd s) in
      let c := lldb_commit_transaction (snd s) in
      let d := network_distribute_operation (network_context i) op in
      failed (fst bg) = false ->
      (failed (fst s) = true ->
         calls r' =
           [E_mtx_lock; E_lldb_begin_transaction (fst bg);
            E_lldb_store_operation op (fst s);
            E_lldb_rollback_transaction (fst rb); E_mtx_unlock] /\
         lldb_context (state r') = snd rb /\
         result r' = fst s) /\
      (failed (fst s) = false -> failed (fst c) = false ->
         calls r' =
           [E_mtx_lock; E_lldb_begin_transaction (fst bg);
            E_lldb_store_operation op (fst s);
            E_lldb_commit_transaction (fst c); E_mtx_unlock;
            E_network_distribute_operation op (fst d)] /\
         lldb_context (state r') = snd c /\
         result r' = fst d)
  | _, _ => calls r' = []
  end.
Proof.
  cbv zeta. destruct instance, operation as [op|];
    try (cbn; repeat split; reflexivity).
  run_runtime.
  destruct (failed (fst (lldb_begin_transaction (lldb_context i)))); cbn;
    [ repeat split; try reflexivity; discriminate | ].
  destruct (failed (fst (lldb_store_operation _ op))); cbn;
    [ repeat split; try reflexivity; discriminate | ].
  destruct (failed (fst (lldb_commit_transaction _))); cbn;
    repeat split; try reflexivity; discriminate.
Qed.

End Lifecycle.

Section Sync.

Context {DB NET : Type} {lldb : LLDBPort DB} {net : NetworkPort NET}
        {alloc : Allocator}.

Local Abbreviation Inst := (CAICRInstance_t DB NET).

Lemma store_operations_run (batch : list CAICROperation) (i : Inst) :
  store_operations batch i =
    mkRun tt (set_lldb_context (store_result batch (lldb_context i)) i)
      (store_events batch (lldb_context i)).
Proof.
  revert i. induction batch as [|op rest IH]; intros i.
  - destruct i; reflexivity.
  - cbn [store_operations store_events store_result].
    unfold bind, caicr_lldb_store_operation, lldb_call. cbn.
    rewrite IH. cbn. reflexivity.
Qed.

Lemma stored_ops_store_events (batch : list CAICROperation) (d : DB) :
  stored_ops (store_events batch d) = batch.
Proof.
  revert d. induction batch as [|op rest IH]; intros d; cbn.
  - reflexivity.
  - unfold stored_ops in IH. now rewrite IH.
Qed.

Lemma store_events_all_stores (batch : list CAICROperation) (d : DB) :
  forallb is_store (store_events batch d) = true.
Proof.
  revert d. induction batch as [|op rest IH]; intros d; cbn; auto.
Qed.

Lemma stored_ops_app (l1 l2 : list Event) :
  stored_ops (l1 ++ l2) = stored_ops l1 ++ stored_ops l2.
Proof. unfold stored_ops. apply flat_map_app. Qed.

(** One pass with no callback registered: two network calls and the sleep,
    whatever was drained. *)
Lemma sync_iteration_no_callback (i : Inst) :
  callback i = None ->
  let s := network_sync_state (network_context i) in
  let g := network_get_pending_operations (snd s) in
  sync_iteration i =
    mkRun tt (set_network_context (snd g) i)
      [E_network_sync_state (fst s);
       E_network_get_pending_operations (fst (fst g)) (snd (fst g));
       E_thrd_sleep (fst (sleep_time (sync_interval_ms (config i))))
                    (snd (sleep_time (sync_interval_ms (config i))))].
Proof.
  intros Hcb. cbv zeta. run_runtime.
  destruct (failed _); cbn.
  - reflexivity.
  - rewrite Hcb. destruct (snd (fst _)); reflexivity.
Qed.

(** One pass with a callback and a non-empty batch drained with success. *)
Lemma sync_iteration_delivers (i : Inst) (f : CAICROperationCallback) :
  let s := network_sync_state (network_context i) in
  let g := network_get_pending_operations (snd s) in
  let batch := snd (fst g) in
  callback i = Some f ->
  failed (fst (fst g)) = false ->
  batch <> [] ->
  calls (sync_iteration i) =
    [E_network_sync_state (fst s);
     E_network_get_pending_operations (fst (fst g)) batch;
     E_callback f batch (callback_user_data i);
     E_mtx_lock]
    ++ store_events batch (lldb_context i)
    ++ [E_mtx_unlock; E_network_free_operations batch;
        E_thrd_sleep (fst (sleep_time (sync_interval_ms (config i))))
                     (snd (sleep_time (sync_interval_ms (config i))))]
  /\ lldb_context (state (sync_iteration i))
     = store_result batch (lldb_context i).
Proof.
  intros s g batch Hcb Hok Hne. subst s g batch.
  run_runtime. rewrite Hok. cbn -[store_operations]. rewrite Hcb.
  destruct (snd (fst (network_get_pending_operations
             (snd (network_sync_state (network_context i)))))) as [|o rest]
    eqn:Hbatch; [ contradiction | ].
  cbn -[store_operations]. rewrite store_operations_run.
  cbn -[store_events store_result]. rewrite <- app_assoc. auto.
Qed.


(** C10: in a pass of the synchronization loop, with no callback registered
    no call reaches the persistence layer and its state is unchanged,
    whatever batch was drained; so a store call in a pass implies a
    registered callback.  With a callback registered and a non-empty batch
    drained with success, the callback is called once on the whole batch,
    before the lock is taken and before any store, and then every operation
    of the batch is handed to [store], in batch order. *)
Theorem sync_iteration_store_gate (i : Inst) :
  let s := network_sync_state (network_context i) in
  let g := network_get_pending_operations (snd s) in
  let batch := snd (fst g) in
  let r := sync_iteration i in
  (callback i = None ->
     filter is_lldb (calls r) = [] /\
     lldb_context (state r) = lldb_context i) /\
  (existsb is_store (calls r) = true -> callback i <> None) /\
  (forall f : CAICROperationCallback,
     callback i = Some f ->
     failed (fst (fst g)) = false ->
     batch <> [] ->
     calls r =
       [E_network_sync_state (fst s);
        E_network_get_pending_operations (fst (fst g)) batch;
        E_callback f batch (callback_user_data i);
        E_mtx_lock]
       ++ store_events batch (lldb_context i)
       ++ [E_mtx_unlock; E_network_free_operations batch;
           E_thrd_sleep (fst (sleep_time (sync_interval_ms (config i))))
                        (snd (sleep_time (sync_interval_ms (config i))))] /\
     stored_ops (calls r) = batch /\
     lldb_context (state r) = store_result batch (lldb_context i)).
Proof.
  intros s g batch r. subst s g batch r. split; [ | split ].
  - intros Hcb. rewrite (sync_iteration_no_callback i Hcb). cbn. auto.
  - intros Hst Hcb. rewrite (sync_iteration_no_callback i Hcb) in Hst.
    cbn in Hst. discriminate.
  - intros f Hcb Hok Hne.
    destruct (sync_iteration_delivers i f Hcb Hok Hne) as [Hcalls Hdb].
    split; [ exact Hcalls | split; [ | exact Hdb ] ].
    rewrite Hcalls, !stored_ops_app, stored_ops_store_events.
    cbn. apply app_nil_r.
Qed.

(** The same over the whole thread function: while no callback is
    registered, however many passes the loop makes, it never calls the
    persistence layer. *)
Lemma sync_thread_no_callback (fuel : nat) (i : Inst) :
  callback i = None ->
  filter is_lldb (calls (caicr_sync_thread_func fuel i)) = [] /\
  lldb_context (state (caicr_sync_thread_func fuel i)) = lldb_context i.
Proof.
  revert i. induction fuel as [|fuel IH]; intros i Hcb.
  - cbn. auto.
  - cbn [caicr_sync_thread_func]. rewrite calls_bind, state_bind.
    unfold atomic_load_is_running, gets. cbn [result state calls app].
    destruct (is_running i); [ | cbn; auto ].
    rewrite calls_bind, state_bind, (sync_iteration_no_callback i Hcb).
    cbn [result state calls].
    specialize (IH (set_network_context
      (snd (network_get_pending_operations
              (snd (network_sync_state (network_context i))))) i) Hcb).
    destruct IH as [IHc IHd]. split.
    + rewrite filter_app, IHc. reflexivity.
    + rewrite IHd. reflexivity.
Qed.

(** The thread function returns once the flag is found cleared. *)
Lemma sync_thread_returns_when_stopped (fuel : nat) (i : Inst) :
  is_running i = false ->
  caicr_sync_thread_func (S fuel) i = mkRun (Some 0) i [].
Proof.
  intros Hrun. cbn [caicr_sync_thread_func].
  unfold bind, atomic_load_is_running, gets. cbn. rewrite Hrun. reflexivity.
Qed.

End Sync.

(** * Runs on concrete backends *)

Section ConcreteRuns.

(** In these runs no allocation fails. *)
#[local] Existing Instance generous.

(** C1: with a log whose commit fails, [caicr_submit_operation] returns the
    persistence error having made no rollback call.  The committed log is
    as it was, but the transaction it began is still open with the appended
    entry in it, so that the next submission cannot begin.  With a log whose
    store fails, the same call does roll back and leaves no transaction
    open. *)
Lemma submit_commit_failure_skips_rollback :
  let i := instance_over
             (empty_log (Some (Call_commit, CAICR_ERROR_PERSISTENCE)))
             quiet None in
  let r := caicr_submit_operation Addr (Some insert_hi) i in
  let j := instance_over
             (empty_log (Some (Call_store, CAICR_ERROR_PERSISTENCE)))
             quiet None in
  let rs := caicr_submit_operation Addr (Some insert_hi) j in
  (result rs = CAICR_ERROR_PERSISTENCE /\
   existsb is_rollback (calls rs) = true /\
   committed (lldb_context (state rs)) = [] /\
   open_txn (lldb_context (state rs)) = None) /\
  result r = CAICR_ERROR_PERSISTENCE /\
  existsb is_rollback (calls r) = false /\
  calls r =
    [E_mtx_lock; E_lldb_begin_transaction CAICR_SUCCESS;
     E_lldb_store_operation insert_hi CAICR_SUCCESS;
     E_lldb_commit_transaction CAICR_ERROR_PERSISTENCE; E_mtx_unlock] /\
  committed (lldb_context (state r)) = [] /\
  open_txn (lldb_context (state r)) = Some [(with_id 1 insert_hi, false)] /\
  calls (caicr_submit_operation Addr (Some delete_hi) (state r)) =
    [E_mtx_lock; E_lldb_begin_transaction CAICR_ERROR_PERSISTENCE;
     E_mtx_unlock].
Proof. cbv zeta. repeat split; reflexivity. Qed.

(** The two failures on the transactional log, once with a failing store
    and once with a failing commit. *)
Lemma submit_persistence_failure_witness :
  let on_store := instance_over
                    (empty_log (Some (Call_store, CAICR_ERROR_PERSISTENCE)))
                    quiet None in
  let on_commit := instance_over
                     (empty_log (Some (Call_commit, CAICR_ERROR_LLDB_QUERY)))
                     quiet None in
  let r := caicr_submit_operation Addr (Some insert_hi) on_store in
  let r' := caicr_submit_operation Addr (Some insert_hi) on_commit in
  (result r = CAICR_ERROR_PERSISTENCE /\
   calls r =
     [E_mtx_lock; E_lldb_begin_transaction CAICR_SUCCESS;
      E_lldb_store_operation insert_hi CAICR_ERROR_PERSISTENCE;
      E_lldb_rollback_transaction CAICR_SUCCESS; E_mtx_unlock] /\
   lldb_context (state r)
     = empty_log (Some (Call_store, CAICR_ERROR_PERSISTENCE))) /\
  (result r' = CAICR_ERROR_LLDB_QUERY /\
   calls r' =
     [E_mtx_lock; E_lldb_begin_transaction CAICR_SUCCESS;
      E_lldb_store_operation insert_hi CAICR_SUCCESS;
      E_lldb_commit_transaction CAICR_ERROR_LLDB_QUERY; E_mtx_unlock] /\
   lldb_context (state r')
     = mkLogDB [] (Some [(with_id 1 insert_hi, false)]) 2
         (Some (Call_commit, CAICR_ERROR_LLDB_QUERY))).
Proof.
  cbv zeta. split.
  - exact (proj1
      (submit_persistence_failure
         (instance_over
            (empty_log (Some (Call_store, CAICR_ERROR_PERSISTENCE)))
            quiet None)
         insert_hi eq_refl)
      eq_refl).
  - exact (proj2
      (submit_persistence_failure
         (instance_over
            (empty_log (Some (Call_commit, CAICR_ERROR_LLDB_QUERY)))
            quiet None)
         insert_hi eq_refl)
      eq_refl eq_refl).
Defined.

(** C2 on the transactional log with a peer whose broadcast fails: the
    committed entry stays in the log. *)
Lemma submit_distribution_failure_keeps_commit_witness :
  let i := instance_over (empty_log None)
             (mkPeer [] [] CAICR_ERROR_INSTANCE_DISCOVERY) None in
  let r := caicr_submit_operation Addr (Some insert_hi) i in
  result r = CAICR_ERROR_INSTANCE_DISCOVERY /\
  result r <> CAICR_SUCCESS /\
  calls r =
    [E_mtx_lock; E_lldb_begin_transaction CAICR_SUCCESS;
     E_lldb_store_operation insert_hi CAICR_SUCCESS;
     E_lldb_commit_transaction CAICR_SUCCESS; E_mtx_unlock;
     E_network_distribute_operation insert_hi
       CAICR_ERROR_INSTANCE_DISCOVERY] /\
  lldb_context (state r)
    = mkLogDB [(with_id 1 insert_hi, false)] None 2 None /\
  mutex (state r) = false.
Proof.
  cbv zeta.
  exact (submit_distribution_failure_keeps_commit
    (instance_over (empty_log None)
       (mkPeer [] [] CAICR_ERROR_INSTANCE_DISCOVERY) None)
    insert_hi eq_refl eq_refl eq_refl eq_refl).
Defined.

(** C3: the operation of the sample client, whose [timestamp_ns] is 0,
    reaches [store] as the caller built it; the committed entry has
    timestamp 0, and the identifier 1 the log gave it. *)
Theorem submit_leaves_timestamp_zero :
  let op := client_operation "inst-1" "hi" in
  let r := caicr_submit_operation Addr (Some op)
             (instance_over (empty_log None) quiet None) in
  result r = CAICR_SUCCESS /\
  stored_ops (calls r) = [op] /\
  timestamp_ns op = 0 /\
  map (fun e => (operation_id (fst e), timestamp_ns (fst e)))
      (committed (lldb_context (state r))) = [(1, 0)].
Proof. cbv zeta. repeat split; reflexivity. Qed.


(** C5 on the repository's own ports, whose [get_last] always answers
    success and NULL. *)
Lemma undo_empty_log_witness :
  result (caicr_undo Addr placeholder_instance)
    = CAICR_ERROR_OPERATION_EXECUTION /\
  calls (caicr_undo Addr placeholder_instance) =
    [E_mtx_lock; E_lldb_get_last_operation CAICR_SUCCESS None;
     E_mtx_unlock] /\
  lldb_context (state (caicr_undo Addr placeholder_instance)) = tt /\
  network_context (state (caicr_undo Addr placeholder_instance)) = true.
Proof. exact (undo_empty_log placeholder_instance eq_refl eq_refl). Defined.

(** The same on the transactional log: an empty log is left empty. *)
Example undo_on_empty_transactional_log :
  let r := caicr_undo Addr (instance_over (empty_log None) quiet None) in
  result r = CAICR_ERROR_OPERATION_EXECUTION /\
  lldb_context (state r) = empty_log None /\
  sent (network_context (state r)) = [].
Proof. cbv zeta. repeat split; reflexivity. Qed.

(** C7, the claim as stated fails: on the instance [caicr_initialize]
    builds over the repository's ports, the first [caicr_shutdown] frees the
    instance, so the second call through the same handle has no defined
    behaviour: it returns no status, an already-shut-down error or any
    other. *)
Lemma second_shutdown_is_use_after_free :
  let made := caicr_initialize (lldb := placeholder_lldb)
                (net := placeholder_network) all_ok
                (Some (config placeholder_instance)) Addr in
  let first := caicr_shutdown Addr placeholder_instance in
  let second := through (caicr_shutdown Addr) (target_after first) in
  state made = Some placeholder_instance /\
  result first = CAICR_SUCCESS /\
  existsb frees_instance (calls first) = true /\
  target_after first = Freed /\
  second = Undefined /\
  (forall r, second <> Defined r).
Proof. cbv zeta. repeat split; try reflexivity. discriminate. Qed.

(** C8, the claim as stated fails in both halves.  After the shutdown
    signal (the flag cleared), a new submission is accepted and its
    operation is appended to the log.  And a submission whose commit fails,
    with the flag set or cleared, ends neither committed nor rolled back:
    no rollback is called and the transaction is left open with the entry
    in it. *)
Lemma submit_after_shutdown_signal_appends :
  let i := instance_over (empty_log None) quiet None in
  let signalled := state (atomic_store_is_running false i) in
  let r := caicr_submit_operation Addr (Some insert_hi) signalled in
  let j := instance_over
             (empty_log (Some (Call_commit, CAICR_ERROR_PERSISTENCE)))
             quiet None in
  let in_flight := caicr_submit_operation Addr (Some insert_hi) j in
  let late := caicr_submit_operation Addr (Some insert_hi)
                (state (atomic_store_is_running false j)) in
  (is_running signalled = false /\
   result r = CAICR_SUCCESS /\
   stored_ops (calls r) = [insert_hi] /\
   committed (lldb_context signalled) = [] /\
   committed (lldb_context (state r)) = [(with_id 1 insert_hi, false)]) /\
  (calls late = calls in_flight /\
   result in_flight = CAICR_ERROR_PERSISTENCE /\
   existsb is_rollback (calls in_flight) = false /\
   committed (lldb_context (state in_flight)) = [] /\
   open_txn (lldb_context (state in_flight))
   = Some [(with_id 1 insert_hi, false)]).
Proof. cbv zeta. repeat split; reflexivity. Qed.

(** C8 as amended, on the transactional log with the flag cleared: a
    submission commits and is then distributed, and one whose store fails is
    rolled back. *)
Lemma submit_ignores_running_flag_witness :
  let i := instance_over (empty_log None) quiet None in
  let j := instance_over
             (empty_log (Some (Call_store, CAICR_ERROR_PERSISTENCE)))
             quiet None in
  let r := caicr_submit_operation Addr (Some insert_hi)
             (set_is_running false i) in
  let rs := caicr_submit_operation Addr (Some insert_hi)
              (set_is_running false j) in
  (calls r =
     [E_mtx_lock; E_lldb_begin_transaction CAICR_SUCCESS;
      E_lldb_store_operation insert_hi CAICR_SUCCESS;
      E_lldb_commit_transaction CAICR_SUCCESS; E_mtx_unlock;
      E_network_distribute_operation insert_hi CAICR_SUCCESS] /\
   lldb_context (state r)
   = mkLogDB [(with_id 1 insert_hi, false)] None 2 None /\
   result r = CAICR_SUCCESS) /\
  (calls rs =
     [E_mtx_lock; E_lldb_begin_transaction CAICR_SUCCESS;
      E_lldb_store_operation insert_hi CAICR_ERROR_PERSISTENCE;
      E_lldb_rollback_transaction CAICR_SUCCESS; E_mtx_unlock] /\
   lldb_context (state rs)
   = empty_log (Some (Call_store, CAICR_ERROR_PERSISTENCE)) /\
   result rs = CAICR_ERROR_PERSISTENCE).
Proof.
  cbv zeta. split.
  - exact (proj2 (proj2 (proj2 (proj2
      (submit_ignores_running_flag (lldb := log_lldb) (net := peer_network)
         Addr (Some insert_hi) false
         (instance_over (empty_log None) quiet None)))) eq_refl)
      eq_refl eq_refl).
  - exact (proj1 (proj2 (proj2 (proj2
      (submit_ignores_running_flag (lldb := log_lldb) (net := peer_network)
         Addr (Some insert_hi) false
         (instance_over
            (empty_log (Some (Call_store, CAICR_ERROR_PERSISTENCE)))
            quiet None)))) eq_refl)
      eq_refl).
Defined.

(** A pass of the loop over a peer with two pending operations: delivered
    and stored with a callback, dropped without one. *)
Example sync_iteration_with_and_without_callback :
  let inbox := [insert_hi; delete_hi] in
  let peer := mkPeer [] inbox CAICR_SUCCESS in
  let txn := mkLogDB [] (Some []) 1 None in
  stored_ops (calls (sync_iteration (instance_over txn peer (Some 7%N))))
    = inbox /\
  stored_ops (calls (sync_iteration (instance_over txn peer None))) = [] /\
  lldb_context (state (sync_iteration (instance_over txn peer None))) = txn /\
  hd_error (skipn 2
    (calls (sync_iteration (instance_over txn peer (Some 7%N)))))
    = Some (E_callback 7%N inbox None).
Proof. cbv zeta. repeat split; reflexivity. Qed.

End ConcreteRuns.

(** * Further properties of caicr.c *)

(** Close one path of [caicr_initialize]. *)
Ltac init_case :=
  cbn; repeat split; intros;
  try discriminate; try congruence; try tauto;
  intuition (try discriminate; try congruence).

Section Initialize.

Context {DB NET : Type} {lldb : LLDBPort DB} {net : NetworkPort NET}
        {alloc : Allocator}.

Local Abbreviation Inst := (CAICRInstance_t DB NET).

(** X1: [caicr_initialize] returns success exactly when the allocation, the
    three copies, the mutex, both ports and the thread all succeeded; it
    then writes a running instance with the caller's configuration, the two
    fresh contexts, a free mutex and no callback, and it writes nothing
    otherwise. *)
Theorem initialize_succeeds_iff (env : Env) (c : CAICRConfig) :
  let l := lldb_initialize (lldb_database_path c) (max_history_entries c) in
  let n := network_initialize
             (mkNetworkConfig (config_instance_id c) (coordination_port c)
                (encryption_enabled c)) in
  let r := caicr_initialize env (Some c) Addr in
  (result r = CAICR_SUCCESS <->
     calloc_ok env = true /\
     strdup_ok env Blk_config_instance_id = true /\
     strdup_ok env Blk_config_project_root = true /\
     strdup_ok env Blk_config_lldb_database_path = true /\
     mtx_init_ok env = true /\
     fst l = CAICR_SUCCESS /\
     fst n = CAICR_SUCCESS /\
     thrd_create_ok env = true) /\
  (result r = CAICR_SUCCESS ->
     state r = Some (mkInstance c (snd l) (snd n) false true true None None)) /\
  (result r <> CAICR_SUCCESS -> state r = None).
Proof.
  cbv zeta. unfold caicr_initialize.
  destruct (calloc_ok env); cbn [negb]; [ | init_case ].
  destruct (strdup_ok env Blk_config_instance_id),
           (strdup_ok env Blk_config_project_root),
           (strdup_ok env Blk_config_lldb_database_path); cbn [negb andb];
    try solve [ init_case ].
  destruct (mtx_init_ok env); cbn [negb]; [ | init_case ].
  destruct (failed (fst (lldb_initialize _ _))) eqn:El.
  { apply failed_true_iff in El. init_case. }
  destruct (failed (fst (network_initialize _))) eqn:En.
  { apply failed_true_iff in En. init_case. }
  apply failed_false_iff in El, En.
  destruct (thrd_create_ok env); init_case.
Qed.

(** What a successful [caicr_initialize] did. *)
Lemma initialize_written (env : Env) (c : CAICRConfig) (i0 : Inst) :
  let l := lldb_initialize (lldb_database_path c) (max_history_entries c) in
  let nc := mkNetworkConfig (config_instance_id c) (coordination_port c)
              (encryption_enabled c) in
  let n := network_initialize nc in
  let r := caicr_initialize env (Some c) Addr in
  state r = Some i0 ->
  failed (fst l) = false /\
  failed (fst n) = false /\
  i0 = mkInstance c (snd l) (snd n) false true true None None /\
  calls r =
    [E_mtx_init;
     E_lldb_initialize (lldb_database_path c) (max_history_entries c) (fst l);
     E_network_initialize nc (fst n);
     E_atomic_store true; E_thrd_create].
Proof.
  cbv zeta. unfold caicr_initialize.
  destruct (calloc_ok env); cbn [negb]; [ | discriminate ].
  destruct (strdup_ok env Blk_config_instance_id
            && strdup_ok env Blk_config_project_root
            && strdup_ok env Blk_config_lldb_database_path);
    cbn [negb]; [ | discriminate ].
  destruct (mtx_init_ok env); cbn [negb]; [ | discriminate ].
  destruct (failed (fst (lldb_initialize _ _))); [ discriminate | ].
  destruct (failed (fst (network_initialize _))); [ discriminate | ].
  destruct (thrd_create_ok env); cbn; [ | discriminate ].
  intros H. injection H as <-. auto.
Qed.

(** X2: when [caicr_initialize] fails it has closed every port it had opened,
    destroyed the mutex if it had initialised one, and freed the instance
    and its three strings if the instance had been allocated. *)
Theorem initialize_failure_releases (env : Env) (c : CAICRConfig) :
  let r := caicr_initialize env (Some c) Addr in
  result r <> CAICR_SUCCESS ->
  occurrences closes_lldb (calls r) = occurrences opens_lldb (calls r) /\
  occurrences closes_network (calls r)
    = occurrences opens_network (calls r) /\
  occurrences is_mtx_destroy (calls r)
    = (if mtx_init_ok env then occurrences is_mtx_init (calls r)
       else 0%nat) /\
  filter is_free (calls r)
    = (if calloc_ok env then free_instance_blocks else []) /\
  existsb is_thrd_join (calls r) = false.
Proof.
  cbv zeta. unfold caicr_initialize, occurrences.
  destruct (calloc_ok env),
           (strdup_ok env Blk_config_instance_id
            && strdup_ok env Blk_config_project_root
            && strdup_ok env Blk_config_lldb_database_path),
           (mtx_init_ok env); cbn [negb];
    try (intros _; cbn; repeat split; reflexivity).
  destruct (failed (fst (lldb_initialize _ _))) eqn:El;
    [ intros _; cbn; rewrite El; cbn; repeat split; reflexivity | ].
  destruct (failed (fst (network_initialize _))) eqn:En;
    [ intros _; cbn; rewrite El, En; cbn; repeat split; reflexivity | ].
  destruct (thrd_create_ok env); cbn; [ congruence | ].
  intros _. rewrite El, En. cbn. repeat split; reflexivity.
Qed.

(** X3: a successful [caicr_initialize] followed by [caicr_shutdown] on the
    instance it wrote leaves nothing behind: each port was opened once and
    closed once, the mutex initialised once and destroyed once, the thread
    created once and joined once, and the instance and its three strings
    freed once each. *)
Theorem initialize_then_shutdown_balanced
    (env : Env) (c : CAICRConfig) (i0 : Inst) :
  let r := caicr_initialize env (Some c) Addr in
  let whole := calls r ++ calls (caicr_shutdown Addr i0) in
  state r = Some i0 ->
  occurrences opens_lldb whole = 1%nat /\
  occurrences closes_lldb whole = 1%nat /\
  occurrences opens_network whole = 1%nat /\
  occurrences closes_network whole = 1%nat /\
  occurrences is_mtx_init whole = 1%nat /\
  occurrences is_mtx_destroy whole = 1%nat /\
  occurrences is_thrd_create whole = 1%nat /\
  occurrences is_thrd_join whole = 1%nat /\
  filter is_free whole = free_instance_blocks /\
  is_running (state (caicr_shutdown Addr i0)) = false.
Proof.
  cbv zeta. intros Hw.
  destruct (initialize_written env c i0 Hw) as (El & En & Hi & Hc).
  rewrite Hc. subst i0. unfold occurrences. run_runtime.
  rewrite El, En. cbn. repeat split; reflexivity.
Qed.

End Initialize.

(** Destruct every status test left in the goal. *)
Ltac split_statuses :=
  repeat match goal with
  | |- context [if failed ?s then _ else _] => destruct (failed s); cbn
  end.

(** The paths of [caicr_undo] once the log has returned [last]: a failed
    fetch, a failed begin, a failed mark, a failed commit, the distribution,
    and the death in the copies, in this order. *)
Ltac undo_after_fetch last :=
  let reverse := fresh "reverse" in
  destruct (failed (fst (fst (lldb_get_last_operation _)))) eqn:E0; cbn;
  [ | destruct (failed (fst (lldb_begin_transaction _))) eqn:E1; cbn;
      [ | destruct (failed (fst (lldb_mark_operation_undone _ _))) eqn:E2;
          cbn;
          [ | destruct (reverse_operation last _) as [reverse|] eqn:Hrev;
              cbn;
              [ destruct (failed (fst (lldb_commit_transaction _))) eqn:E3;
                cbn
              | ] ] ] ].

(** The same, keeping what each test said as a fact about the status. *)
Ltac split_statuses_eqn :=
  repeat match goal with
  | |- context [if failed ?s then _ else _] =>
      let E := fresh "E" in
      destruct (failed s) eqn:E; cbn;
      [ apply failed_true_iff in E | apply failed_false_iff in E ]
  end.

Section Discipline.

Context {DB NET : Type} {lldb : LLDBPort DB} {net : NetworkPort NET}
        {alloc : Allocator}.

Local Abbreviation Inst := (CAICRInstance_t DB NET).

(** Two disciplined traces in a row are disciplined. *)
Lemma disciplined_app (held : bool) (l1 l2 : list Event) :
  disciplined held l1 = true ->
  disciplined false l2 = true ->
  disciplined held (l1 ++ l2) = true.
Proof.
  revert held. induction l1 as [|e l1 IH]; intros held H1 H2.
  - cbn in *. destruct held; [ discriminate | exact H2 ].
  - destruct e; cbn in *;
      try (apply andb_true_iff in H1 as [Ha Hb];
           apply andb_true_iff; split; [ exact Ha | ]);
      try (apply IH; assumption);
      try (destruct held; cbn in *; try discriminate; apply IH; assumption).
Qed.

(** The stores of a batch are all made under the lock. *)
Lemma disciplined_store_events
    (batch : list CAICROperation) (d : DB) (rest : list Event) :
  disciplined true (store_events batch d ++ rest) = disciplined true rest.
Proof.
  revert d. induction batch as [|op batch IH]; intros d; cbn.
  - reflexivity.
  - apply IH.
Qed.

(** X4: whatever path they take, [caicr_submit_operation], [caicr_undo] and
    [caicr_register_operation_callback] keep the locking discipline: they
    access the log only while holding the instance mutex, call the network
    only after releasing it, and never return with the mutex held.  When
    [caicr_undo] dies in its copies it has kept the discipline up to there,
    and it dies holding the mutex. *)
Theorem foreground_lock_discipline
    (instance : Ptr) (operation : option CAICROperation)
    (cb : option CAICROperationCallback) (user_data : UserData) (i : Inst) :
  disciplined false (calls (caicr_submit_operation instance operation i))
    = true /\
  match result (caicr_undo instance i) with
  | Returned _ => disciplined false (calls (caicr_undo instance i)) = true
  | Crashed => held_after false (calls (caicr_undo instance i)) = Some true
  end /\
  disciplined false
    (calls (caicr_register_operation_callback instance cb user_data i))
    = true.
Proof.
  destruct instance; [ repeat split; reflexivity | ].
  split; [ | split ].
  - destruct operation as [op|]; [ | reflexivity ].
    run_runtime. split_statuses; reflexivity.
  - run_runtime.
    destruct (snd (fst (lldb_get_last_operation (lldb_context i))))
      as [last|]; cbn; [ | reflexivity ].
    destruct (failed (fst (fst _))); cbn; [ reflexivity | ].
    destruct (failed (fst (lldb_begin_transaction _))); cbn;
      [ reflexivity | ].
    destruct (failed (fst (lldb_mark_operation_undone _ _))); cbn;
      [ reflexivity | ].
    destruct (reverse_operation last _); cbn; [ | reflexivity ].
    split_statuses; reflexivity.
  - reflexivity.
Qed.

(** One pass of the synchronization loop keeps the discipline. *)
Lemma sync_iteration_disciplined (i : Inst) :
  disciplined false (calls (sync_iteration i)) = true.
Proof.
  run_runtime. destruct (failed _); cbn; [ reflexivity | ].
  destruct (callback i); cbn;
    destruct (snd (fst (network_get_pending_operations _))) eqn:Hb;
    cbn -[store_operations]; try reflexivity.
  rewrite store_operations_run. cbn -[store_events store_result].
  rewrite <- app_assoc. rewrite disciplined_store_events. reflexivity.
Qed.

(** X5: the synchronization thread keeps the locking discipline over any number
    of passes: network calls and the callback outside the mutex, the stores
    of a delivered batch inside it, the mutex free at every sleep. *)
Theorem sync_thread_lock_discipline (fuel : nat) (i : Inst) :
  disciplined false (calls (caicr_sync_thread_func fuel i)) = true.
Proof.
  revert i. induction fuel as [|fuel IH]; intros i; [ reflexivity | ].
  cbn [caicr_sync_thread_func]. rewrite calls_bind.
  unfold atomic_load_is_running, gets. cbn [result state calls app].
  destruct (is_running i); [ | reflexivity ].
  rewrite calls_bind. apply disciplined_app.
  - apply sync_iteration_disciplined.
  - apply IH.
Qed.

End Discipline.

Section Outcomes.

Context {DB NET : Type} {lldb : LLDBPort DB} {net : NetworkPort NET}
        {alloc : Allocator}.

Local Abbreviation Inst := (CAICRInstance_t DB NET).

(** X6: [caicr_submit_operation] returns the status of the first of begin,
    store, commit and distribute that failed, and success exactly when all
    four succeeded; the status of the rollback it makes after a failed store
    is never returned. *)
Theorem submit_returns_first_failure (i : Inst) (op : CAICROperation) :
  let b := lldb_begin_transaction (lldb_context i) in
  let s := lldb_store_operation (snd b) op in
  let c := lldb_commit_transaction (snd s) in
  let d := network_distribute_operation (network_context i) op in
  let r := caicr_submit_operation Addr (Some op) i in
  result r =
    (if failed (fst b) then fst b
     else if failed (fst s) then fst s
     else if failed (fst c) then fst c
     else fst d) /\
  (result r = CAICR_SUCCESS <->
     fst b = CAICR_SUCCESS /\ fst s = CAICR_SUCCESS /\
     fst c = CAICR_SUCCESS /\ fst d = CAICR_SUCCESS).
Proof.
  cbv zeta. run_runtime. split_statuses_eqn;
    (split; [ reflexivity | intuition congruence ]).
Qed.

(** X7: [caicr_undo] returns success exactly when the log returned a last
    operation with success, begin and mark-undone succeeded, the initialiser
    of the reversal did not die, and the commit and the distribution of the
    reversal succeeded. *)
Theorem undo_succeeds_iff (i : Inst) :
  let g := lldb_get_last_operation (lldb_context i) in
  let b := lldb_begin_transaction (snd g) in
  let r := caicr_undo Addr i in
  result r = CAICR_SUCCESS <->
  exists last reverse : CAICROperation,
    snd (fst g) = Some last /\
    fst (fst g) = CAICR_SUCCESS /\
    fst b = CAICR_SUCCESS /\
    reverse_operation last (config_instance_id (config i)) = Some reverse /\
    let m := lldb_mark_operation_undone (snd b) (operation_id last) in
    let c := lldb_commit_transaction (snd m) in
    fst m = CAICR_SUCCESS /\
    fst c = CAICR_SUCCESS /\
    fst (network_distribute_operation (network_context i) reverse)
      = CAICR_SUCCESS.
Proof.
  cbv zeta. run_runtime.
  destruct (snd (fst (lldb_get_last_operation (lldb_context i))))
    as [last|] eqn:Hl; cbn.
  - undo_after_fetch last;
      try apply failed_true_iff in E0; try apply failed_false_iff in E0;
      try apply failed_true_iff in E1; try apply failed_false_iff in E1;
      try apply failed_true_iff in E2; try apply failed_false_iff in E2;
      try apply failed_true_iff in E3; try apply failed_false_iff in E3;
      (split;
       [ intros Hr; try discriminate Hr; injection Hr as Hr;
         try contradiction
       | intros (l' & rv & Hs & H0 & H1 & Hrv & H2 & H3 & H4);
         injection Hs as <-; try contradiction; try congruence ]).
    exists last, reverse. repeat split; assumption.
  - split; [ | intros (l' & rv & Hs & _); discriminate ].
    destruct (failed _) eqn:E; cbn; intros Hr; injection Hr as Hr;
      [ apply failed_true_iff in E; contradiction | discriminate ].
Qed.

(** X8: when the log returned a last operation with success, every path
    on which [caicr_undo] returns has released it exactly once, whether
    begin, mark-undone, commit or the distribution failed or all succeeded.
    When the log returned an operation together with a failure status,
    [caicr_undo] returns without releasing it; and when it dies in its
    copies it has not released it. *)
Theorem undo_releases_fetched_operation (i : Inst) (last : CAICROperation) :
  let g := lldb_get_last_operation (lldb_context i) in
  let r := caicr_undo Addr i in
  snd (fst g) = Some last ->
  filter is_free_operation (calls r) =
    match result r with
    | Crashed => []
    | Returned _ =>
        if failed (fst (fst g)) then [] else [E_free_operation last]
    end.
Proof.
  cbv zeta. intros Hl. run_runtime. rewrite Hl. cbn.
  undo_after_fetch last; reflexivity.
Qed.

(** X9: [caicr_undo] begins at most one transaction.  When it returns, its
    commit and rollback calls together are as many as the transactions it
    began: one call, a commit or a rollback, when [begin] succeeded, and
    none otherwise, so that no rollback follows a commit, failed or not.
    When it dies in its copies it has begun a transaction and called neither
    commit nor rollback. *)
Theorem undo_transaction_calls (i : Inst) :
  let r := caicr_undo Addr i in
  (occurrences begun (calls r) <= 1)%nat /\
  match result r with
  | Returned _ =>
      (occurrences is_commit (calls r) + occurrences is_rollback (calls r))%nat
      = occurrences begun (calls r) /\
      (existsb is_commit (calls r) = true ->
       existsb is_rollback (calls r) = false)
  | Crashed =>
      occurrences begun (calls r) = 1%nat /\
      occurrences is_commit (calls r) = 0%nat /\
      occurrences is_rollback (calls r) = 0%nat
  end.
Proof.
  cbv zeta. unfold occurrences. run_runtime.
  destruct (snd (fst (lldb_get_last_operation (lldb_context i))))
    as [last|]; cbn.
  - undo_after_fetch last; rewrite ?E1; cbn;
      repeat split; try lia; try reflexivity; discriminate.
  - repeat split; try lia; discriminate.
Qed.

(** X10: [caicr_undo] never appends to the log: the reversal it computes is
    distributed but not stored.  Its only write is at most one mark-undone,
    and that on the identifier of the operation the log returned as last. *)
Theorem undo_stores_nothing (instance : Ptr) (i : Inst) :
  let r := caicr_undo instance i in
  stored_ops (calls r) = [] /\
  (occurrences is_mark (calls r) <= 1)%nat /\
  (forall (id : Z) (s : CAICRStatus),
     In (E_lldb_mark_operation_undone id s) (calls r) ->
     exists last : CAICROperation,
       snd (fst (lldb_get_last_operation (lldb_context i))) = Some last /\
       id = operation_id last).
Proof.
  cbv zeta. unfold occurrences.
  destruct instance;
    [ cbn; repeat split; auto; intros ? ? [] | ].
  run_runtime.
  destruct (snd (fst (lldb_get_last_operation (lldb_context i))))
    as [last|]; cbn.
  - undo_after_fetch last;
      (split; [ reflexivity | split; [ cbn; lia | ] ]);
      intros id s HIn; cbn in HIn;
      repeat (destruct HIn as [HIn|HIn]; try discriminate HIn);
      try contradiction;
      injection HIn as <- _; exists last; auto.
  - split; [ reflexivity | split; [ cbn; lia | ] ].
    intros id s HIn; cbn in HIn.
    repeat (destruct HIn as [HIn|HIn]; try discriminate HIn).
    contradiction.
Qed.

End Outcomes.

Section Reversal.

Context {alloc : Allocator}.


End Reversal.

Section Thread.

Context {DB NET : Type} {lldb : LLDBPort DB} {net : NetworkPort NET}
        {alloc : Allocator}.

Local Abbreviation Inst := (CAICRInstance_t DB NET).

(** X12: for a [uint32_t] interval, [sleep_time] is a valid [timespec] that
    lasts exactly the interval: the nanoseconds are below one second and a
    whole number of milliseconds, their product does not overflow 32 bits,
    and seconds and nanoseconds add up to the interval. *)
Theorem sleep_time_exact (interval_ms : Z) :
  0 <= interval_ms < 2 ^ 32 ->
  let tv_sec := fst (sleep_time interval_ms) in
  let tv_nsec := snd (sleep_time interval_ms) in
  0 <= tv_sec <= 4294967 /\
  0 <= tv_nsec < 1000000000 /\
  tv_nsec < 2 ^ 32 /\
  tv_nsec mod 1000000 = 0 /\
  tv_sec * 1000 + tv_nsec / 1000000 = interval_ms.
Proof.
  intros H. cbv zeta. unfold sleep_time. cbn [fst snd].
  change (2 ^ 32) with 4294967296 in *.
  pose proof (Z.mod_pos_bound interval_ms 1000 ltac:(lia)) as Hm.
  pose proof (Z.div_mod interval_ms 1000 ltac:(lia)) as Hd.
  assert (Hq : 0 <= interval_ms / 1000 <= 4294967) by lia.
  repeat split; try lia.
  - apply Z.mod_mul. lia.
  - rewrite Z.div_mul by lia. lia.
Qed.

(** A pass of the loop leaves the registration, the flag, the thread and
    the configuration of the instance as they were. *)
Lemma sync_iteration_keeps (i : Inst) :
  let i' := state (sync_iteration i) in
  is_running i' = is_running i /\
  callback i' = callback i /\
  callback_user_data i' = callback_user_data i /\
  sync_thread i' = sync_thread i /\
  config i' = config i.
Proof.
  cbv zeta. run_runtime.
  destruct (failed _); cbn; [ repeat split; reflexivity | ].
  destruct (callback i) eqn:Ec; cbn;
    destruct (snd (fst (network_get_pending_operations _)));
    cbn -[store_operations];
    try (repeat split; (reflexivity || assumption)).
  rewrite store_operations_run. cbn.
  repeat split; (reflexivity || assumption).
Qed.

(** Each pass sleeps exactly once. *)
Lemma sync_iteration_sleeps_once (i : Inst) :
  occurrences is_sleep (calls (sync_iteration i)) = 1%nat.
Proof.
  unfold occurrences. run_runtime. destruct (failed _); cbn; [ auto | ].
  destruct (callback i); cbn;
    destruct (snd (fst (network_get_pending_operations _)));
    cbn -[store_operations]; auto.
  rewrite store_operations_run. cbn -[store_events store_result].
  rewrite <- app_assoc, !filter_app, !length_app.
  assert (Hs : forall batch d,
            filter is_sleep (store_events batch d) = []).
  { induction batch; intros; cbn; auto. }
  rewrite Hs. reflexivity.
Qed.

(** X13: the thread function cannot stop by itself: with the flag set it makes
    one pass (and one sleep) per unit of fuel and is still looping, with the
    flag still set; with the flag cleared it returns 0 at once without a
    single call.  Only a store to [is_running] from outside ends it. *)
Theorem sync_thread_stops_only_on_flag (fuel : nat) (i : Inst) :
  let r := caicr_sync_thread_func fuel i in
  if is_running i then
    result r = None /\
    occurrences is_sleep (calls r) = fuel /\
    is_running (state r) = true
  else
    match fuel with
    | O => result r = None
    | S _ => result r = Some 0
    end /\
    calls r = [] /\ state r = i.
Proof.
  cbv zeta. revert i. induction fuel as [|fuel IH]; intros i.
  - cbn. destruct (is_running i) eqn:E; auto.
  - cbn [caicr_sync_thread_func].
    rewrite result_bind, calls_bind, state_bind.
    unfold atomic_load_is_running, gets. cbn [result state calls app].
    destruct (is_running i) eqn:E; [ | cbn; auto ].
    rewrite result_bind, calls_bind, state_bind.
    destruct (sync_iteration_keeps i) as (Hr & _).
    specialize (IH (state (sync_iteration i))).
    rewrite Hr, E in IH. destruct IH as (IH1 & IH2 & IH3).
    split; [ exact IH1 | split; [ | exact IH3 ] ].
    unfold occurrences in *. rewrite filter_app, length_app, IH2.
    pose proof (sync_iteration_sleeps_once i) as Hs.
    unfold occurrences in Hs. rewrite Hs. reflexivity.
Qed.

(** X14: after [caicr_shutdown] the flag is cleared, so a thread function that
    comes to test it returns 0 without calling the network, the callback or
    the log again. *)
Theorem shutdown_stops_sync_thread (fuel : nat) (i : Inst) :
  let stopped := state (caicr_shutdown Addr i) in
  caicr_sync_thread_func (S fuel) stopped = mkRun (Some 0) stopped [].
Proof.
  cbv zeta. apply sync_thread_returns_when_stopped. reflexivity.
Qed.

End Thread.

Section Delivery.

Context {DB NET : Type} {lldb : LLDBPort DB} {net : NetworkPort NET}
        {alloc : Allocator}.

Local Abbreviation Inst := (CAICRInstance_t DB NET).

Lemma filter_store_events (p : Event -> bool)
    (batch : list CAICROperation) (d : DB) :
  (forall op r, p (E_lldb_store_operation op r) = true) ->
  filter p (store_events batch d) = store_events batch d.
Proof.
  intros Hp. revert d. induction batch as [|op batch IH]; intros d; cbn.
  - reflexivity.
  - rewrite Hp, IH. reflexivity.
Qed.

Lemma filter_out_store_events (p : Event -> bool)
    (batch : list CAICROperation) (d : DB) :
  (forall op r, p (E_lldb_store_operation op r) = false) ->
  filter p (store_events batch d) = [].
Proof.
  intros Hp. revert d. induction batch as [|op batch IH]; intros d; cbn.
  - reflexivity.
  - rewrite Hp. apply IH.
Qed.

(** X15: a pass delivers all or nothing.  It delivers when the drain succeeded,
    the batch is not empty and a callback is registered: then the callback
    is called once, the lock taken once, the whole batch stored and the
    batch handed back to the network once.  Otherwise, also when the drain
    failed with a callback registered, none of these calls is made and the
    batch is neither stored nor handed back. *)
Theorem sync_iteration_all_or_nothing (i : Inst) :
  let s := network_sync_state (network_context i) in
  let g := network_get_pending_operations (snd s) in
  let batch := snd (fst g) in
  let delivers :=
    negb (failed (fst (fst g)))
    && match batch with [] => false | _ :: _ => true end
    && match callback i with Some _ => true | None => false end in
  let r := sync_iteration i in
  let n := if delivers then 1%nat else 0%nat in
  occurrences is_callback (calls r) = n /\
  occurrences is_mtx_lock (calls r) = n /\
  occurrences is_network_free (calls r) = n /\
  stored_ops (calls r) = (if delivers then batch else []).
Proof.
  cbv zeta. unfold occurrences. run_runtime.
  destruct (failed _); cbn; [ repeat split; reflexivity | ].
  destruct (callback i); cbn;
    destruct (snd (fst (network_get_pending_operations _))) as [|o rest];
    cbn -[store_operations]; try (repeat split; reflexivity).
  rewrite store_operations_run. cbn -[store_events store_result].
  rewrite <- app_assoc.
  rewrite !filter_app, !stored_ops_app, stored_ops_store_events.
  rewrite !filter_out_store_events by reflexivity.
  cbn. rewrite app_nil_r. repeat split; reflexivity.
Qed.

(** The log accesses of one pass are its stores. *)
Lemma sync_iteration_only_stores (i : Inst) :
  filter is_log_access (calls (sync_iteration i))
  = filter is_store (calls (sync_iteration i)).
Proof.
  run_runtime. destruct (failed _); cbn; [ reflexivity | ].
  destruct (callback i); cbn;
    destruct (snd (fst (network_get_pending_operations _))) as [|o rest];
    cbn -[store_operations]; try reflexivity.
  rewrite store_operations_run. cbn -[store_events store_result].
  rewrite <- app_assoc, !filter_app.
  rewrite !filter_store_events by reflexivity.
  reflexivity.
Qed.

(** X16: the synchronization thread stores peer operations outside any
    transaction: over any number of passes its only accesses to the log are
    store calls; it never begins, commits or rolls back a transaction, never
    reads the last operation and never marks one undone. *)
Theorem sync_thread_stores_without_transaction (fuel : nat) (i : Inst) :
  let r := caicr_sync_thread_func fuel i in
  filter is_log_access (calls r) = filter is_store (calls r) /\
  occurrences begun (calls r) = 0%nat /\
  occurrences ends_transaction (calls r) = 0%nat.
Proof.
  cbv zeta.
  assert (H : filter is_log_access (calls (caicr_sync_thread_func fuel i))
              = filter is_store (calls (caicr_sync_thread_func fuel i))).
  { revert i. induction fuel as [|fuel IH]; intros i; [ reflexivity | ].
    cbn [caicr_sync_thread_func]. rewrite calls_bind.
    unfold atomic_load_is_running, gets. cbn [result state calls app].
    destruct (is_running i); [ | reflexivity ].
    rewrite calls_bind, !filter_app, sync_iteration_only_stores, IH.
    reflexivity. }
  split; [ exact H | ].
  assert (Hsub : forall (p : Event -> bool) (l : list Event),
            (forall e, p e = true -> is_log_access e = true) ->
            (forall e, is_store e = true -> p e = false) ->
            filter is_log_access l = filter is_store l ->
            filter p l = []).
  { intros p l Hin Hout. induction l as [|e l IHl]; cbn; [ reflexivity | ].
    destruct (p e) eqn:Ep.
    - rewrite (Hin e Ep). destruct (is_store e) eqn:Es.
      + rewrite (Hout e Es) in Ep. discriminate.
      + intros Heq. exfalso.
        assert (Hin' : In e (filter is_store l))
          by (rewrite <- Heq; left; reflexivity).
        apply filter_In in Hin' as [_ Hse]. congruence.
    - destruct (is_log_access e) eqn:El, (is_store e) eqn:Es; intros Heq.
      + injection Heq as Heq. apply IHl, Heq.
      + exfalso.
        assert (Hin' : In e (filter is_store l))
          by (rewrite <- Heq; left; reflexivity).
        apply filter_In in Hin' as [_ Hse]. congruence.
      + exfalso.
        assert (Hin' : In e (filter is_log_access l))
          by (rewrite Heq; left; reflexivity).
        apply filter_In in Hin' as [_ Hse]. congruence.
      + apply IHl, Heq. }
  unfold occurrences. split.
  - rewrite (Hsub begun _); [ reflexivity | | | exact H ].
    + intros e; destruct e; cbn; congruence.
    + intros e; destruct e; cbn; congruence.
  - rewrite (Hsub ends_transaction _); [ reflexivity | | | exact H ].
    + intros e; destruct e; cbn; congruence.
    + intros e; destruct e; cbn; congruence.
Qed.

(** X17: the next pass uses the callback registered last: after
    [caicr_register_operation_callback], a pass that drains a non-empty
    batch with success calls exactly the registered function, once, with the
    registered user data and the whole batch; after registering NULL no
    pass calls any callback. *)
Theorem register_then_sync
    (cb : option CAICROperationCallback) (user_data : UserData) (i : Inst) :
  let i' := state (caicr_register_operation_callback Addr cb user_data i) in
  let g := network_get_pending_operations
             (snd (network_sync_state (network_context i))) in
  filter is_callback (calls (sync_iteration i')) =
    match cb with
    | None => []
    | Some f =>
        if failed (fst (fst g)) then []
        else match snd (fst g) with
             | [] => []
             | batch => [E_callback f batch user_data]
             end
    end.
Proof.
  cbv zeta. run_runtime. destruct (failed _); cbn.
  - destruct cb; reflexivity.
  - destruct cb as [f|]; cbn;
      destruct (snd (fst (network_get_pending_operations _))) as [|o rest];
      cbn -[store_operations]; try reflexivity.
    rewrite store_operations_run. cbn -[store_events store_result].
    rewrite <- app_assoc, !filter_app.
    rewrite filter_out_store_events by reflexivity. reflexivity.
Qed.

(** Registration replaces: registering twice leaves the instance as
    registering the second callback alone does, and touches neither port nor
    the running flag. *)
Lemma register_last_wins
    (cb1 cb2 : option CAICROperationCallback) (ud1 ud2 : UserData)
    (i : Inst) :
  let once := state (caicr_register_operation_callback Addr cb2 ud2 i) in
  state (caicr_register_operation_callback Addr cb2 ud2
           (state (caicr_register_operation_callback Addr cb1 ud1 i)))
    = once /\
  callback once = cb2 /\ callback_user_data once = ud2 /\
  lldb_context once = lldb_context i /\
  network_context once = network_context i /\
  is_running once = is_running i.
Proof. cbv zeta. run_runtime. repeat split; reflexivity. Qed.

End Delivery.

(** * The runtime over the ports shipped in the repository *)

Section Shipped.

Context {alloc : Allocator}.

Local Abbreviation Shipped := (CAICRInstance_t unit bool).

(** One pass over the shipped network port: it drains nothing. *)
Lemma shipped_sync_iteration (i : Shipped) :
  calls (sync_iteration i) =
    [E_network_sync_state CAICR_SUCCESS;
     E_network_get_pending_operations CAICR_SUCCESS [];
     E_thrd_sleep (fst (sleep_time (sync_interval_ms (config i))))
                  (snd (sleep_time (sync_interval_ms (config i))))] /\
  callback (state (sync_iteration i)) = callback i /\
  lldb_context (state (sync_iteration i)) = lldb_context i.
Proof. run_runtime. repeat split; reflexivity. Qed.

(** X18: with caicr_lldb.c and caicr_network.c as they are, every submission
    succeeds and yet nothing can be undone: [caicr_undo] right after a
    successful [caicr_submit_operation] finds no last operation, returns
    [CAICR_ERROR_OPERATION_EXECUTION] and distributes nothing. *)
Theorem shipped_undo_finds_nothing (i : Shipped) (op : CAICROperation) :
  let submitted := caicr_submit_operation Addr (Some op) i in
  let undone := caicr_undo Addr (state submitted) in
  result submitted = CAICR_SUCCESS /\
  stored_ops (calls submitted) = [op] /\
  result undone = CAICR_ERROR_OPERATION_EXECUTION /\
  calls undone =
    [E_mtx_lock; E_lldb_get_last_operation CAICR_SUCCESS None;
     E_mtx_unlock].
Proof. cbv zeta. repeat split; reflexivity. Qed.

(** X19: with caicr_network.c as it is, the synchronization thread never calls
    the registered callback and never stores anything, however long it
    runs: the shipped drain always returns NULL. *)
Theorem shipped_sync_never_delivers (fuel : nat) (i : Shipped) :
  let r := caicr_sync_thread_func fuel i in
  occurrences is_callback (calls r) = 0%nat /\
  filter is_lldb (calls r) = [] /\
  callback (state r) = callback i.
Proof.
  cbv zeta. revert i. induction fuel as [|fuel IH]; intros i.
  - repeat split; reflexivity.
  - cbn [caicr_sync_thread_func]. rewrite calls_bind, state_bind.
    unfold atomic_load_is_running, gets. cbn [result state calls app].
    destruct (is_running i); [ | repeat split; reflexivity ].
    rewrite calls_bind, state_bind.
    destruct (shipped_sync_iteration i) as (Hc & Hcb & _).
    destruct (IH (state (sync_iteration i))) as (IH1 & IH2 & IH3).
    unfold occurrences in *. rewrite !filter_app, length_app, Hc, IH1, IH2.
    rewrite IH3, Hcb. repeat split; reflexivity.
Qed.

End Shipped.

(** * The sample client *)

Section StripNewline.

Lemma length_append_char (s : string) (c : Ascii.ascii) :
  String.length (String.append s (String c EmptyString))
  = S (String.length s).
Proof. induction s as [|a s IH]; cbn; [ reflexivity | now rewrite IH ]. Qed.

Lemma get_append_char (s : string) (c : Ascii.ascii) :
  String.get (String.length s) (String.append s (String c EmptyString))
  = Some c.
Proof. induction s as [|a s IH]; cbn; [ reflexivity | exact IH ]. Qed.

Lemma substring_append_left (s t : string) :
  String.substring 0 (String.length s) (String.append s t) = s.
Proof.
  induction s as [|a s IH]; cbn.
  - destruct t; reflexivity.
  - now rewrite IH.
Qed.

(** What is left when the last character is cut, and that character. *)
Lemma cut_last (a : Ascii.ascii) (s : string) :
  exists c : Ascii.ascii,
    String.get (String.length s) (String a s) = Some c /\
    String a s
    = String.append (String.substring 0 (String.length s) (String a s))
        (String c EmptyString).
Proof.
  revert a. induction s as [|b s IH]; intros a.
  - exists a. cbn. auto.
  - destruct (IH b) as (c & Hg & Hs). exists c. split.
    + cbn [String.length String.get]. exact Hg.
    + cbn [String.length]. cbn [String.substring String.append].
      f_equal. exact Hs.
Qed.

(** X20: [strip_newline] removes exactly one trailing newline: a line that ends
    in a newline loses it, and any string either comes back unchanged or is
    the result followed by one newline.  In particular the empty string is
    unchanged and of two trailing newlines one is kept. *)
Theorem strip_newline_cuts_one (s : string) :
  strip_newline (String.append s (String newline EmptyString)) = s /\
  (strip_newline s = s \/
   s = String.append (strip_newline s) (String newline EmptyString)) /\
  strip_newline EmptyString = EmptyString.
Proof.
  split; [ | split; [ | reflexivity ] ].
  - unfold strip_newline. rewrite length_append_char.
    cbn [Nat.sub]. rewrite Nat.sub_0_r, get_append_char.
    cbn [Nat.ltb Nat.leb andb]. rewrite Ascii.eqb_refl.
    apply substring_append_left.
  - destruct s as [|a s]; [ left; reflexivity | ].
    unfold strip_newline. cbn [String.length Nat.sub]. rewrite Nat.sub_0_r.
    destruct (cut_last a s) as (c & Hg & Hs). rewrite Hg.
    cbn [Nat.ltb Nat.leb andb].
    destruct (Ascii.eqb c newline) eqn:Ec; [ right | left; reflexivity ].
    apply Ascii.eqb_eq in Ec. subst c. exact Hs.
Qed.

End StripNewline.

Section ClientFacts.

Context {DB NET : Type} {lldb : LLDBPort DB} {net : NetworkPort NET}
        {alloc : Allocator}.

Local Abbreviation Inst := (CAICRInstance_t DB NET).

Lemma bind_ext {S A B : Type} (c : M S A) (f g : A -> M S B) (s : S) :
  (forall a s', f a s' = g a s') -> bind c f s = bind c g s.
Proof. intros H. unfold bind. destruct (c s). now rewrite H. Qed.

Lemma bind_ext_left {S A B : Type} (c c' : M S A) (f : A -> M S B) (s : S) :
  c s = c' s -> bind c f s = bind c' f s.
Proof. intros H. unfold bind. now rewrite H. Qed.

Lemma filter_none (p q : Event -> bool) (l : list Event) :
  existsb q l = false ->
  (forall e, p e = true -> q e = true) ->
  filter p l = [].
Proof.
  intros Hq Hpq. induction l as [|e l IH]; cbn in *; [ reflexivity | ].
  apply orb_false_iff in Hq as [He Hl].
  destruct (p e) eqn:Ep; [ rewrite (Hpq e Ep) in He; discriminate | ].
  apply IH, Hl.
Qed.

(** No command of the runtime creates or destroys a port, the mutex or the
    thread. *)
Lemma commands_not_lifecycle (i : Inst) (operation : option CAICROperation) :
  existsb is_lifecycle (calls (caicr_submit_operation Addr operation i))
    = false /\
  existsb is_lifecycle (calls (caicr_undo Addr i)) = false /\
  existsb is_lifecycle (calls (caicr_redo Addr i)) = false.
Proof.
  split; [ | split ].
  - destruct operation as [op|]; [ | reflexivity ].
    run_runtime. split_statuses; reflexivity.
  - run_runtime.
    destruct (snd (fst (lldb_get_last_operation (lldb_context i))))
      as [last|]; cbn;
      [ undo_after_fetch last; reflexivity
      | split_statuses; reflexivity ].
  - reflexivity.
Qed.

Lemma client_loop_not_lifecycle (own_id : string) (lines : list string)
    (i : Inst) :
  existsb is_lifecycle (calls (client_loop own_id lines i)) = false.
Proof.
  revert i. induction lines as [|line rest IH]; intros i; [ reflexivity | ].
  cbn [client_loop]. cbv zeta.
  destruct (String.eqb (strip_newline line) "q"); [ reflexivity | ].
  destruct (String.eqb (strip_newline line) "u");
    [ | destruct (String.eqb (strip_newline line) "r") ].
  - rewrite calls_bind, existsb_app.
    rewrite (proj1 (proj2 (commands_not_lifecycle i None))).
    destruct (result (caicr_undo Addr i)); [ | reflexivity ].
    rewrite calls_bind, existsb_app, IH. reflexivity.
  - rewrite calls_bind, calls_bind, existsb_app, existsb_app, IH.
    reflexivity.
  - rewrite calls_bind, calls_bind, existsb_app, existsb_app, IH.
    cbn [ret calls existsb orb]. rewrite orb_false_r.
    apply (commands_not_lifecycle i _).
Qed.

(** A command loop that was left dead made a successful mark-undone call:
    it died in a [caicr_undo] that had fetched an operation. *)
Lemma undo_death_after_mark (i : Inst) :
  result (caicr_undo Addr i) = Crashed ->
  exists id : Z,
    In (E_lldb_mark_operation_undone id CAICR_SUCCESS)
       (calls (caicr_undo Addr i)).
Proof.
  run_runtime.
  destruct (snd (fst (lldb_get_last_operation (lldb_context i))))
    as [last|]; cbn; [ | discriminate ].
  undo_after_fetch last; try discriminate.
  intros _. exists (operation_id last).
  apply failed_false_iff in E2. rewrite E2. cbn. auto 10.
Qed.

Lemma client_loop_death (own_id : string) (lines : list string) (i : Inst) :
  fst (result (client_loop own_id lines i)) = false ->
  exists id : Z,
    In (E_lldb_mark_operation_undone id CAICR_SUCCESS)
       (calls (client_loop own_id lines i)).
Proof.
  revert i. induction lines as [|line rest IH]; intros i;
    [ discriminate | ].
  cbn [client_loop]. cbv zeta.
  destruct (String.eqb (strip_newline line) "q"); [ discriminate | ].
  destruct (String.eqb (strip_newline line) "u");
    [ | destruct (String.eqb (strip_newline line) "r") ].
  - rewrite result_bind, calls_bind.
    destruct (result (caicr_undo Addr i)) eqn:Eu.
    + rewrite result_bind, calls_bind. cbn [ret result fst].
      intros H. destruct (IH _ H) as (id & HIn). exists id.
      apply in_or_app; right. apply in_or_app; left. exact HIn.
    + intros _. destruct (undo_death_after_mark i Eu) as (id & HIn).
      exists id. apply in_or_app; left. exact HIn.
  - rewrite !result_bind, !calls_bind. cbn [ret result fst].
    intros H. destruct (IH _ H) as (id & HIn). exists id.
    apply in_or_app; right. apply in_or_app; left. exact HIn.
  - rewrite !result_bind, !calls_bind. cbn [ret result fst].
    intros H. destruct (IH _ H) as (id & HIn). exists id.
    apply in_or_app; right. apply in_or_app; left. exact HIn.
Qed.

(** The ports [caicr_initialize] leaves open: both on success, none on
    failure. *)
Lemma initialize_ports (env : Env) (c : CAICRConfig) :
  let r := caicr_initialize env (Some c) Addr in
  if failed (result r) then
    occurrences closes_lldb (calls r) = occurrences opens_lldb (calls r) /\
    occurrences closes_network (calls r)
      = occurrences opens_network (calls r)
  else
    occurrences opens_lldb (calls r) = 1%nat /\
    occurrences closes_lldb (calls r) = 0%nat /\
    occurrences opens_network (calls r) = 1%nat /\
    occurrences closes_network (calls r) = 0%nat /\
    exists i : Inst, state r = Some i.
Proof.
  cbv zeta. unfold caicr_initialize, occurrences.
  destruct (calloc_ok env),
           (strdup_ok env Blk_config_instance_id
            && strdup_ok env Blk_config_project_root
            && strdup_ok env Blk_config_lldb_database_path),
           (mtx_init_ok env); cbn [negb];
    try (cbn; split; reflexivity).
  destruct (failed (fst (lldb_initialize _ _))) eqn:El;
    [ cbn [result]; rewrite El; cbn; rewrite El; cbn; auto | ].
  destruct (failed (fst (network_initialize _))) eqn:En;
    [ cbn [result]; rewrite En; cbn; rewrite El, En; cbn; auto | ].
  destruct (thrd_create_ok env); cbn; rewrite El, En; cbn; eauto 10.
Qed.

(** The calls of a session after a successful initialisation: the
    shutdown is made only by a process that left the loop alive. *)
Lemma client_session_run (ce : ClientEnv) (project_path : string) (i : Inst) :
  let registered :=
    state (caicr_register_operation_callback Addr
             (Some (operation_callback ce)) None i) in
  let looped := client_loop (uuid ce) (reads ce) registered in
  let r := client_session ce project_path i in
  if fst (result looped)
  then fst (result r) = Exited EXIT_SUCCESS /\
       calls r = [E_mtx_lock; E_mtx_unlock] ++ calls looped
                 ++ shutdown_calls (state looped)
  else fst (result r) = Killed /\
       calls r = [E_mtx_lock; E_mtx_unlock] ++ calls looped.
Proof.
  cbv zeta. unfold client_session.
  rewrite result_bind, calls_bind.
  change (result (caicr_register_operation_callback Addr
                    (Some (operation_callback ce)) None i))
    with CAICR_SUCCESS.
  cbn [failed status_code Z.eqb negb].
  rewrite result_bind, calls_bind.
  destruct (fst (result (client_loop (uuid ce) (reads ce) _))).
  - rewrite result_bind, calls_bind.
    split; [ reflexivity | ].
    apply (f_equal (app [E_mtx_lock; E_mtx_unlock])).
    apply (f_equal (app (calls (client_loop (uuid ce) (reads ce) _)))).
    unfold shutdown_calls. run_runtime. reflexivity.
  - split; [ reflexivity | ].
    cbn [ret calls]. rewrite app_nil_r. reflexivity.
Qed.

(** X21: [main] exits with [EXIT_FAILURE] unless it was given at least two
    arguments and [caicr_initialize] succeeded on the configuration built
    from them; in that case it exits with [EXIT_SUCCESS] or is killed in a
    [caicr_undo], and no failure status of a later submit, undo or redo
    changes the exit code.  It is killed only after a successful mark-undone
    call.  With fewer arguments it prints the usage and makes no call at
    all. *)
Theorem client_exit_code (env : Env) (ce : ClientEnv) (argv : list string) :
  let r := client_main env ce argv in
  (fst (result r) = Exited EXIT_SUCCESS \/ fst (result r) = Killed <->
   exists (a0 project_path a2 : string) (more : list string),
     argv = a0 :: project_path :: a2 :: more /\
     result (caicr_initialize env (Some (client_config ce project_path))
               Addr) = CAICR_SUCCESS) /\
  (fst (result r) = Exited EXIT_SUCCESS \/ fst (result r) = Killed
   \/ fst (result r) = Exited EXIT_FAILURE) /\
  (fst (result r) = Killed ->
   exists id : Z,
     In (E_lldb_mark_operation_undone id CAICR_SUCCESS) (calls r)) /\
  ((List.length argv < 3)%nat ->
   result r = (Exited EXIT_FAILURE, [Print_usage]) /\ calls r = []).
Proof.
  cbv zeta.
  destruct argv as [|a0 [|p [|a2 more]]];
    try (cbn; split; [ split; [ intros [H|H]; discriminate H
                              | intros (? & ? & ? & ? & H & _);
                                discriminate H ]
                     | split; [ auto
                              | split; [ discriminate
                                       | intros _; split; reflexivity ] ] ]).
  cbn [client_main]. cbv zeta.
  pose proof (initialize_ports env (client_config ce p)) as Hp.
  cbv zeta in Hp.
  destruct (failed (result (caicr_initialize env
              (Some (client_config ce p)) Addr))) eqn:Ef.
  - apply failed_true_iff in Ef. cbn [result fst calls].
    split; [ split | split; [ auto | split ] ].
    + intros [H|H]; discriminate H.
    + intros (a0' & p' & a2' & more' & Heq & Hs).
      injection Heq as -> -> -> ->. contradiction.
    + discriminate.
    + cbn. lia.
  - apply failed_false_iff in Ef.
    destruct Hp as (_ & _ & _ & _ & i & Hi). rewrite Hi.
    cbn [result calls].
    pose proof (client_session_run ce p i) as Hs. cbv zeta in Hs.
    pose proof (client_loop_death (uuid ce) (reads ce)
                  (state (caicr_register_operation_callback Addr
                            (Some (operation_callback ce)) None i)))
      as Hd.
    destruct (fst (result (client_loop (uuid ce) (reads ce) _)));
      destruct Hs as [Hr Hc]; rewrite Hr.
    + split; [ split | split; [ auto | split ] ].
      * intros _. exists a0, p, a2, more. split; [ reflexivity | exact Ef ].
      * auto.
      * discriminate.
      * cbn. lia.
    + split; [ split | split; [ auto | split ] ].
      * intros _. exists a0, p, a2, more. split; [ reflexivity | exact Ef ].
      * auto.
      * intros _. destruct (Hd eq_refl) as (id & HIn). exists id.
        rewrite Hc. apply in_or_app; right.
        apply in_or_app; right. exact HIn.
      * cbn. lia.
Qed.

(** X22: whatever its arguments, whatever it reads and whichever step
    fails, a [main] that exits has closed the persistence port and the
    network port exactly as often as it opened them: once each when
    initialisation succeeded, and not at all otherwise beyond what
    [caicr_initialize] undoes itself.  A [main] that is killed has opened
    each port once and closed neither. *)
Theorem client_main_closes_what_it_opens
    (env : Env) (ce : ClientEnv) (argv : list string) :
  let r := client_main env ce argv in
  match fst (result r) with
  | Exited _ =>
      occurrences closes_lldb (calls r) = occurrences opens_lldb (calls r) /\
      occurrences closes_network (calls r)
      = occurrences opens_network (calls r)
  | Killed =>
      occurrences opens_lldb (calls r) = 1%nat /\
      occurrences closes_lldb (calls r) = 0%nat /\
      occurrences opens_network (calls r) = 1%nat /\
      occurrences closes_network (calls r) = 0%nat
  end.
Proof.
  cbv zeta.
  destruct argv as [|a0 [|p [|a2 more]]]; try (split; reflexivity).
  cbn [client_main]. cbv zeta.
  pose proof (initialize_ports env (client_config ce p)) as Hp.
  cbv zeta in Hp.
  destruct (failed (result (caicr_initialize env
              (Some (client_config ce p)) Addr))) eqn:Ef;
    [ exact Hp | ].
  destruct Hp as (Hol & Hcl & Hon & Hcn & i & Hi). rewrite Hi.
  cbn [calls result].
  pose proof (client_session_run ce p i) as Hs. cbv zeta in Hs.
  assert (Hnone : forall q : Event -> bool,
            (forall e, q e = true -> is_lifecycle e = true) ->
            filter q (calls (client_loop (uuid ce) (reads ce)
              (state (caicr_register_operation_callback Addr
                        (Some (operation_callback ce)) None i)))) = []).
  { intros q Hq. apply (filter_none q is_lifecycle); [ | exact Hq ].
    apply client_loop_not_lifecycle. }
  destruct (fst (result (client_loop (uuid ce) (reads ce) _)));
    destruct Hs as [Hr Hc]; rewrite Hr, Hc; unfold occurrences in *;
    rewrite !filter_app, !length_app, Hol, Hcl, Hon, Hcn;
    rewrite !Hnone by (intros e; destruct e; cbn; congruence);
    unfold shutdown_calls; cbn; repeat split; reflexivity.
Qed.

(** X23: the command loop stops at the first line that reads "q": what follows
    it is never read, submitted or printed. *)
Theorem client_loop_stops_at_quit
    (own_id line : string) (before after : list string) (i : Inst) :
  strip_newline line = "q"%string ->
  client_loop own_id (before ++ line :: after) i
  = client_loop own_id (before ++ [line]) i.
Proof.
  intros Hq. revert i. induction before as [|b before IH]; intros i.
  - cbn [app client_loop]. cbv zeta. rewrite Hq. reflexivity.
  - cbn [app client_loop]. cbv zeta.
    destruct (String.eqb (strip_newline b) "q"); [ reflexivity | ].
    destruct (String.eqb (strip_newline b) "u");
      [ | destruct (String.eqb (strip_newline b) "r") ];
      apply bind_ext; intros status s';
      try (destruct status; [ | reflexivity ]);
      apply bind_ext_left, IH.
Qed.

End ClientFacts.

Section ClientConfig.

Lemma substring_length_le (n : nat) (s : string) :
  (String.length (String.substring 0 n s) <= n)%nat.
Proof.
  revert s. induction n as [|n IH]; intros s.
  - destruct s; cbn; lia.
  - destruct s as [|a s]; cbn; [ lia | ].
    specialize (IH s). lia.
Qed.

Lemma substring_whole (n : nat) (s : string) :
  (String.length s <= n)%nat -> String.substring 0 n s = s.
Proof.
  revert s. induction n as [|n IH]; intros s H.
  - destruct s; cbn in *; [ reflexivity | lia ].
  - destruct s as [|a s]; cbn in *; [ reflexivity | ].
    rewrite IH by lia. reflexivity.
Qed.

Lemma length_append_sum (s t : string) :
  String.length (String.append s t)
  = (String.length s + String.length t)%nat.
Proof. induction s as [|a s IH]; cbn; [ reflexivity | now rewrite IH ]. Qed.

(** X24: the configuration [main] builds is always within the limits of its C
    types: the port is a 16-bit value, equal to the number typed when that
    is in range, and the database path fits the 1024-byte buffer, being the
    project path followed by "/.caicr_history.db" whenever that is at most
    1023 characters and its truncation otherwise. *)
Theorem client_config_fits (ce : ClientEnv) (project_path : string) :
  let c := client_config ce project_path in
  0 <= coordination_port c < 65536 /\
  (0 <= atoi_port ce < 65536 -> coordination_port c = atoi_port ce) /\
  (String.length (lldb_database_path c) <= 1023)%nat /\
  ((String.length project_path + 18 <= 1023)%nat ->
   lldb_database_path c
   = String.append project_path "/.caicr_history.db") /\
  ((1023 < String.length project_path + 18)%nat ->
   String.length (lldb_database_path c) = 1023%nat).
Proof.
  cbv zeta. cbn [client_config coordination_port lldb_database_path].
  unfold db_path_of.
  split; [ apply Z.mod_pos_bound; lia | ].
  split; [ intros H; apply Z.mod_small; exact H | ].
  split; [ apply substring_length_le | ].
  split.
  - intros H. apply substring_whole. rewrite length_append_sum.
    cbn [String.length]. lia.
  - intros H.
    assert (Hlen : forall n s, (n <= String.length s)%nat ->
              String.length (String.substring 0 n s) = n).
    { induction n as [|n IH]; intros s Hs.
      - destruct s; reflexivity.
      - destruct s as [|a s]; cbn in *; [ lia | ].
        rewrite IH by lia. reflexivity. }
    apply Hlen. rewrite length_append_sum. cbn [String.length]. lia.
Qed.

End ClientConfig.

Section ShippedClient.

Context {alloc : Allocator}.

Local Abbreviation Shipped := (CAICRInstance_t unit bool).

(** X25: with the ports shipped in the repository, a session of the client
    stores every typed line once, in the order typed, as an insert at
    sample.txt 1:1 that carries the line without its newline; and the only
    failures it reports are those of undo, one "Failed to undo: 7" for each
    "u" typed: submissions and redo never report a failure.  No command
    kills it. *)
Theorem shipped_client_loop (own_id : string) (lines : list string)
    (i : Shipped) :
  let r := client_loop own_id lines i in
  stored_ops (calls r)
  = map (client_operation own_id) (submitted_lines lines) /\
  filter is_failure_report (snd (result r))
  = repeat (Print_undo_failed 7) (undo_commands lines) /\
  fst (result r) = true.
Proof.
  cbv zeta. revert i. induction lines as [|line rest IH]; intros i.
  - repeat split; reflexivity.
  - cbn [client_loop submitted_lines undo_commands]. cbv zeta.
    destruct (String.eqb (strip_newline line) "q");
      [ repeat split; reflexivity | ].
    destruct (String.eqb (strip_newline line) "u");
      [ | destruct (String.eqb (strip_newline line) "r") ];
      rewrite result_bind, calls_bind;
      try change (result (caicr_undo Addr i))
            with (Returned CAICR_ERROR_OPERATION_EXECUTION);
      cbv iota;
      rewrite result_bind, calls_bind, stored_ops_app, stored_ops_app;
      match goal with
      | |- context [client_loop own_id rest ?s] =>
          destruct (IH s) as (IHc & IHr & IHa); rewrite IHc;
          set (out := result (client_loop own_id rest s)) in *
      end;
      cbn [ret result calls fst snd]; unfold report; cbn; rewrite ?IHr;
      rewrite ?app_nil_r; repeat split; solve [ reflexivity | exact IHa ].
Qed.

End ShippedClient.

(** * Further runs on concrete backends *)

Section FurtherRuns.

(** In these runs no allocation fails. *)
#[local] Existing Instance generous.

(** A failing [thrd_create] over the shipped ports: both ports that were
    opened are closed again. *)
Lemma initialize_failure_releases_witness :
  let env := mkEnv true (fun _ => true) true false in
  let r := caicr_initialize (lldb := placeholder_lldb)
             (net := placeholder_network) env
             (Some (config placeholder_instance)) Addr in
  result r = CAICR_ERROR_UNKNOWN /\
  occurrences closes_lldb (calls r) = 1%nat /\
  occurrences closes_network (calls r) = 1%nat /\
  occurrences is_mtx_destroy (calls r) = 1%nat /\
  filter is_free (calls r) = free_instance_blocks /\
  existsb is_thrd_join (calls r) = false.
Proof.
  cbv zeta. split; [ reflexivity | ].
  exact (initialize_failure_releases (lldb := placeholder_lldb)
           (net := placeholder_network)
           (mkEnv true (fun _ => true) true false)
           (config placeholder_instance)
           ltac:(discriminate)).
Defined.

(** Initialisation and shutdown over the shipped ports. *)
Lemma initialize_then_shutdown_balanced_witness :
  let r := caicr_initialize (lldb := placeholder_lldb)
             (net := placeholder_network) all_ok
             (Some (config placeholder_instance)) Addr in
  let whole := calls r ++ calls (caicr_shutdown Addr placeholder_instance) in
  state r = Some placeholder_instance /\
  occurrences opens_lldb whole = 1%nat /\
  occurrences closes_lldb whole = 1%nat /\
  occurrences opens_network whole = 1%nat /\
  occurrences closes_network whole = 1%nat /\
  occurrences is_mtx_init whole = 1%nat /\
  occurrences is_mtx_destroy whole = 1%nat /\
  occurrences is_thrd_create whole = 1%nat /\
  occurrences is_thrd_join whole = 1%nat /\
  filter is_free whole = free_instance_blocks /\
  is_running (state (caicr_shutdown Addr placeholder_instance)) = false.
Proof.
  cbv zeta. split; [ reflexivity | ].
  exact (initialize_then_shutdown_balanced (lldb := placeholder_lldb)
           (net := placeholder_network) all_ok
           (config placeholder_instance) placeholder_instance eq_refl).
Defined.

(** Undo over the two-entry log releases the fetched delete once; undo
    over the log that ends in a delete without content dies and releases
    nothing. *)
Lemma undo_releases_fetched_operation_witness :
  filter is_free_operation
    (calls (caicr_undo Addr (instance_over two_entries quiet None)))
  = [E_free_operation (with_id 2 delete_hi)] /\
  filter is_free_operation
    (calls (caicr_undo Addr (instance_over bare_delete_log quiet None)))
  = [].
Proof.
  split.
  - exact (undo_releases_fetched_operation (lldb := log_lldb)
             (net := peer_network) (alloc := generous)
             (instance_over two_entries quiet None) (with_id 2 delete_hi)
             eq_refl).
  - exact (undo_releases_fetched_operation (lldb := log_lldb)
             (net := peer_network) (alloc := generous)
             (instance_over bare_delete_log quiet None)
             (with_id 1 bare_delete) eq_refl).
Defined.

(** Undo over the log that ends in a delete without content: the process
    dies in [strdup(NULL)] after the mark, holding the mutex, with the
    transaction open and the entry marked in it; nothing is distributed. *)
Example undo_dies_on_bare_delete :
  let r := caicr_undo Addr (instance_over bare_delete_log quiet None) in
  result r = Crashed /\
  calls r =
    [E_mtx_lock;
     E_lldb_get_last_operation CAICR_SUCCESS (Some (with_id 1 bare_delete));
     E_lldb_begin_transaction CAICR_SUCCESS;
     E_lldb_mark_operation_undone 1 CAICR_SUCCESS] /\
  held_after false (calls r) = Some true /\
  committed (lldb_context (state r)) = [(with_id 1 bare_delete, false)] /\
  open_txn (lldb_context (state r)) = Some [(with_id 1 bare_delete, true)] /\
  sent (network_context (state r)) = [].
Proof. cbv zeta. repeat split; reflexivity. Qed.


(** The interval of the sample client, and the largest [uint32_t]. *)
Lemma sleep_time_exact_witness :
  sleep_time 1000 = (1, 0) /\
  sleep_time 4294967295 = (4294967, 295000000) /\
  fst (sleep_time 4294967295) * 1000
  + snd (sleep_time 4294967295) / 1000000 = 4294967295.
Proof.
  split; [ reflexivity | split; [ reflexivity | ] ].
  exact (proj2 (proj2 (proj2 (proj2
    (sleep_time_exact 4294967295
       (conj (Zle_bool_imp_le 0 4294967295 eq_refl) eq_refl)))))).
Defined.

(** A session that types a line, quits and then types more: the lines
    after "q" change nothing. *)
Lemma client_loop_stops_at_quit_witness :
  strip_newline (line_of "q") = "q"%string /\
  client_loop "inst-1"
    ([line_of "hello"] ++ line_of "q" :: [line_of "ignored"; line_of "u"])
    placeholder_instance
  = client_loop "inst-1" ([line_of "hello"] ++ [line_of "q"])
      placeholder_instance.
Proof.
  split; [ reflexivity | ].
  exact (client_loop_stops_at_quit (lldb := placeholder_lldb)
           (net := placeholder_network) "inst-1" (line_of "q")
           [line_of "hello"] [line_of "ignored"; line_of "u"]
           placeholder_instance eq_refl).
Defined.

End FurtherRuns.
